(** * harbor-cli: the migration orchestration commands, embedded and verified

    The development follows three of the oclif commands of the tool:
    [Generate] (stack detection, overwrite guard, template rendering),
    [Migrate] (build and publish, data sync, deployment selection) and
    [Troubleshoot] (container diagnostics).  The fourth, [Notify], stands
    apart from the migration pipeline and has a module of its own.

    Every command is an [async run()] method that talks to the outside world:
    it logs, prompts the operator, reads and writes files, shells out with
    [execSync] and queries the container runtime through dockerode.  The
    embedding makes these effects explicit:

    - the answers of the outside world are collected in a [World] record
      (an oracle: what the operator answers, how each external command exits,
      what the container runtime returns);
    - a command is a function from the filesystem to an [outcome], the new
      filesystem and the list of [event]s it produced, in program order;
    - [execSync] and the dockerode calls may throw; nothing in the commands
      catches, so a throw ends the run with [Threw];
    - prompts always return an answer and [fs.writeFile] always succeeds: the
      failure kinds considered are those of external processes and of the
      container runtime. *)

From Stdlib Require Import String Ascii List Bool Sorted.
From stdpp Require Import base strings gmap list.
Import ListNotations.

Open Scope string_scope.
Open Scope list_scope.

(** ** JavaScript values *)

(** Error text carried by a thrown exception or a rejected promise. *)
Definition error := string.

Abbreviation filesystem := (gmap string string).

(** Truthiness of a [string | undefined] value: [undefined] and the empty
    string are falsy. *)
Definition truthy (v : option string) : bool :=
  match v with
  | Some s => negb (String.eqb s "")
  | None => false
  end.

(** [v === s] for [v : string | null | undefined] and a string literal [s]. *)
Definition strict_eq (v : option string) (s : string) : bool :=
  match v with
  | Some x => String.eqb x s
  | None => false
  end.

(** [s.slice(0, n)] *)
Definition slice0 (n : nat) (s : string) : string := String.substring 0 n s.

(** The double quote and the line feed, which string literals here avoid. *)
Definition dquote : string := String (ascii_of_nat 34) EmptyString.
Definition nl : string := String (ascii_of_nat 10) EmptyString.

(** Library functions of the Node runtime and of npm packages that the
    commands call but that are not part of the repository: [path.join],
    the [dedent] template tag (template strings, then interpolated values)
    and [String.prototype.trim]. *)
Class NodeLib := {
  path_join : string -> string -> string;
  dedent : list string -> list string -> string;
  trim : string -> string;
}.

(** ** dockerode data *)

Record PortBinding := { HostIp : string; HostPort : string }.

(** An element of [docker.listContainers()]. *)
Record ContainerInfo := {
  Id : string;
  Names : list string;
  Status : string;
}.

(** The part of [container.inspect()] that the commands read.
    [NetworkSettings.Ports] maps a container port to its host bindings
    ([null] when the port is exposed but not published) and may itself be
    absent. *)
Record ContainerInspectInfo := {
  Name : string;
  State_Status : string;
  NetworkSettings_Ports : option (gmap string (option (list PortBinding)));
  Config_Image : string;
}.

(** ** Prompts, messages and events *)

(** The questions asked through [inquirer.prompt], named after the [name]
    field of the question object. *)
Inductive question : Type :=
| QBuild                                      (* confirm, 'Build and push the Docker image?' *)
| QDbName                                     (* input, 'Database name?' *)
| QContainerId (choices : list (string * string)) (* list, 'Select a container to troubleshoot:' *)
| QCheckLogs                                  (* confirm, 'View recent logs?' *)
| QStack                                      (* list, 'Could not auto-detect stack. Choose one:' *)
| QOverwrite                                  (* confirm, 'Overwrite existing files?' *)
| QPort                                       (* input, 'What port does your app run on?' *)
| QEntrypoint (default : string).             (* input, 'What is your app entrypoint?' *)

(** The messages passed to [this.log], one constructor per call site, with
    the interpolated values as arguments. *)
Inductive message : Type :=
(* Migrate.run *)
| MigrateStarting (image : string)
| MissingDockerFiles
| BuildingImage
| ImageBuilt
| SyncingData (dbType : string)
| DataDumped
| SkippingDataSync
| CheckingDaemon
| DeployingToVps (vps image : string)
| DeployingLocally
| StagingRunning
| MigrationComplete
(* Troubleshoot.run *)
| TroubleshootStarting
| NoContainersFound
| NoContainerSelected
| ContainerStats (name status : string)
                 (ports : option (gmap string (option (list PortBinding))))
                 (image : string)
| NotRunning (status id12 : string)
| RecentLogs (logs : string)
| RunningChecks
| PortsConfigured
| NoPortsExposed
| TroubleshootComplete
(* Generate.run *)
| GenerateStarting (output : string)
| AutoDetected (stack : string)
| ExistingFiles (dockerfile compose : string)
| GenerationSkipped
| DockerfileWritten (path : string)
| ComposeWritten (path : string)
| FilesReady
(* Generate.run of src/commands/generate.ts *)
| GeneratingFor (stack : string)
| WhyDockerFiles
| DockerfileGenerated (path : string)
| ComposeGenerated (path : string)
| FilesReadyNextSteps
| TipCustomize.

(** What a command does to the outside world, in program order. *)
Inductive event : Type :=
| Log (m : message)
| Prompt (q : question)
| Exec (cmd : string)
| WriteFile (path content : string)
| DockerVersion
| DockerListContainers
| DockerInspect (id : string)
| DockerLogs (id : string) (tail : nat).

(** ** The outside world *)

Record World := {
  (** answer to a confirm question *)
  confirm : question -> bool;
  (** answer to an input or list question *)
  input : question -> string;
  (** [None]: the command exits with code 0; [Some e]: [execSync] throws
      (nonzero exit code, or the program cannot be started) *)
  exec_outcome : string -> option error;
  docker_version_outcome : option error;
  docker_list_outcome : error + list ContainerInfo;
  docker_inspect_outcome : string -> error + ContainerInspectInfo;
  docker_logs_outcome : string -> error + string;
}.

(** ** The command monad *)

Inductive outcome (A : Type) : Type :=
| Returned (a : A)
| Threw (e : error).
Arguments Returned {A} a.
Arguments Threw {A} e.

Definition Cmd (A : Type) : Type :=
  filesystem -> outcome A * filesystem * list event.

#[export] Instance Cmd_ret : MRet Cmd :=
  fun A (a : A) fs => (Returned a, fs, []).

#[export] Instance Cmd_bind : MBind Cmd :=
  fun A B (f : A -> Cmd B) (m : Cmd A) fs =>
    match m fs with
    | (Returned a, fs1, t1) =>
        match f a fs1 with
        | (r, fs2, t2) => (r, fs2, t1 ++ t2)
        end
    | (Threw e, fs1, t1) => (Threw e, fs1, t1)
    end.

Definition result_of {A} (r : outcome A * filesystem * list event) : outcome A :=
  fst (fst r).
Definition fs_of {A} (r : outcome A * filesystem * list event) : filesystem :=
  snd (fst r).
Definition trace_of {A} (r : outcome A * filesystem * list event) : list event :=
  snd r.

Section Primitives.
Context (w : World).

(** [this.log(m)] *)
Definition log (m : message) : Cmd unit :=
  fun fs => (Returned tt, fs, [Log m]).

(** [await inquirer.prompt([{type: 'confirm', ...}])] *)
Definition prompt_confirm (q : question) : Cmd bool :=
  fun fs => (Returned (confirm w q), fs, [Prompt q]).

(** [await inquirer.prompt([{type: 'input' | 'list', ...}])] *)
Definition prompt_input (q : question) : Cmd string :=
  fun fs => (Returned (input w q), fs, [Prompt q]).

(** [execSync(cmd, { stdio: 'inherit' })] *)
Definition execSync (cmd : string) : Cmd unit :=
  fun fs =>
    match exec_outcome w cmd with
    | None => (Returned tt, fs, [Exec cmd])
    | Some e => (Threw e, fs, [Exec cmd])
    end.

(** [fssync.existsSync(p)] *)
Definition existsSync (p : string) : Cmd bool :=
  fun fs => (Returned (match fs !! p with Some _ => true | None => false end), fs, []).

(** [await fs.writeFile(p, content)] *)
Definition writeFile (p content : string) : Cmd unit :=
  fun fs => (Returned tt, <[p := content]> fs, [WriteFile p content]).

(** [await docker.version()] *)
Definition docker_version : Cmd unit :=
  fun fs =>
    match docker_version_outcome w with
    | None => (Returned tt, fs, [DockerVersion])
    | Some e => (Threw e, fs, [DockerVersion])
    end.

(** [await docker.listContainers({ all: true })] *)
Definition docker_listContainers : Cmd (list ContainerInfo) :=
  fun fs =>
    match docker_list_outcome w with
    | inr cs => (Returned cs, fs, [DockerListContainers])
    | inl e => (Threw e, fs, [DockerListContainers])
    end.

(** [await docker.getContainer(id).inspect()] *)
Definition docker_inspect (id : string) : Cmd ContainerInspectInfo :=
  fun fs =>
    match docker_inspect_outcome w id with
    | inr i => (Returned i, fs, [DockerInspect id])
    | inl e => (Threw e, fs, [DockerInspect id])
    end.

(** [await container.logs({ stdout: true, stderr: true, tail })] *)
Definition docker_logs (id : string) (tail : nat) : Cmd string :=
  fun fs =>
    match docker_logs_outcome w id with
    | inr l => (Returned l, fs, [DockerLogs id tail])
    | inl e => (Threw e, fs, [DockerLogs id tail])
    end.
End Primitives.

(** Events of the trace after the first one that satisfies [p]. *)
Fixpoint events_after (p : event -> bool) (t : list event) : list event :=
  match t with
  | [] => []
  | e :: t' => if p e then t' else events_after p t'
  end.

Definition is_exec (cmd : string) (e : event) : bool :=
  match e with
  | Exec c => String.eqb c cmd
  | _ => false
  end.

(** * The migrate command *)

Module Migrate.

Record Flags := {
  image : string;          (* --image, required *)
  vps : option string;     (* --vps *)
  dbType : string;         (* --dbType, one of postgres, mysql, none; default none *)
  force : bool;            (* --force, default false *)
}.

Definition build_command (image : string) : string :=
  "docker buildx build --platform linux/amd64,linux/arm64 -t " +:+ image +:+ " --push .".

Definition pg_dump_command (dbName : string) : string :=
  "pg_dump " +:+ dbName +:+ " > db_dump.sql".

Definition mysqldump_command (dbName : string) : string :=
  "mysqldump " +:+ dbName +:+ " > db_dump.sql".

Definition compose_up_command : string := "docker-compose up -d".

Section Run.
Context `{NodeLib} (w : World).

(** Helper: Check for Docker files *)
Definition checkDockerFiles : Cmd bool :=
  dockerfileExists ← existsSync (path_join "." "Dockerfile");
  composeExists ← existsSync (path_join "." "docker-compose.yml");
  mret (dockerfileExists && composeExists).

(** Step 1: Build and Push Image *)
Definition buildAndPush (flags : Flags) : Cmd unit :=
  buildConfirm ← (if force flags then mret true else prompt_confirm w QBuild);
  if (buildConfirm : bool) then
    log BuildingImage;;
    execSync w (build_command (image flags));;
    log ImageBuilt
  else mret tt.

(** Step 2: Data Sync *)
Definition dataSync (flags : Flags) : Cmd unit :=
  if negb (String.eqb (dbType flags) "none") then
    log (SyncingData (dbType flags));;
    dbName ← prompt_input w QDbName;
    (if String.eqb (dbType flags) "postgres" then
       execSync w (pg_dump_command dbName)
     else if String.eqb (dbType flags) "mysql" then
       execSync w (mysqldump_command dbName)
     else mret tt);;
    log DataDumped
  else log SkippingDataSync.

(** Step 3: Staging Deployment *)
Definition stagingDeployment (flags : Flags) : Cmd unit :=
  log CheckingDaemon;;
  docker_version w;;
  if truthy (vps flags) then
    log (DeployingToVps (default "" (vps flags)) (image flags))
  else
    log DeployingLocally;;
    execSync w compose_up_command;;
    log StagingRunning.

Definition run (flags : Flags) : Cmd unit :=
  log (MigrateStarting (image flags));;
  filesPresent ← checkDockerFiles;
  if negb filesPresent then
    log MissingDockerFiles
  else
    buildAndPush flags;;
    dataSync flags;;
    stagingDeployment flags;;
    log MigrationComplete.

End Run.
End Migrate.

(** * The troubleshoot command *)

Module Troubleshoot.

Record Flags := {
  container : option string;   (* --container *)
}.

(** An entry of the selection list: [{ name: `${c.Names[0]} (${c.Status})`, value: c.Id }] *)
Definition choice_of (c : ContainerInfo) : string * string :=
  (hd "undefined" (Names c) +:+ " (" +:+ Status c +:+ ")", Id c).

(** [inspect.NetworkSettings.Ports && Object.keys(inspect.NetworkSettings.Ports).length > 0] *)
Definition ports_configured
    (ports : option (gmap string (option (list PortBinding)))) : bool :=
  match ports with
  | Some m => Nat.ltb 0 (size m)
  | None => false
  end.

Section Run.
Context (w : World).

(** Step 1: List and Select Container (the selection part) *)
Definition selectContainer (flags : Flags) (containers : list ContainerInfo)
  : Cmd (option string) :=
  if negb (truthy (container flags)) then
    containerId ← prompt_input w (QContainerId (map choice_of containers));
    mret (Some containerId)
  else mret (container flags).

(** Step 3: Log Check *)
Definition logCheck (targetContainerId : string) : Cmd unit :=
  checkLogs ← prompt_confirm w QCheckLogs;
  if (checkLogs : bool) then
    logs ← docker_logs w targetContainerId 20;
    log (RecentLogs logs)
  else mret tt.

(** Step 4: Common Issue Checks *)
Definition commonChecks (inspect : ContainerInspectInfo) : Cmd unit :=
  log RunningChecks;;
  if ports_configured (NetworkSettings_Ports inspect) then
    log PortsConfigured
  else
    log NoPortsExposed.

Definition run (flags : Flags) : Cmd unit :=
  log TroubleshootStarting;;
  containers ← docker_listContainers w;
  if Nat.eqb (length containers) 0 then
    log NoContainersFound
  else
    target ← selectContainer flags containers;
    if negb (truthy target) then
      log NoContainerSelected
    else
      let targetContainerId := default "" target in
      (* Step 2: Basic Stats and Checks *)
      inspect ← docker_inspect w targetContainerId;
      log (ContainerStats (Name inspect) (State_Status inspect)
             (NetworkSettings_Ports inspect) (Config_Image inspect));;
      (if negb (String.eqb (State_Status inspect) "running") then
         log (NotRunning (State_Status inspect) (slice0 12 targetContainerId))
       else mret tt);;
      logCheck targetContainerId;;
      commonChecks inspect;;
      log TroubleshootComplete.

End Run.
End Troubleshoot.

(** * The generate command *)

Module Generate.

Record Flags := {
  stack : option string;   (* --stack, one of node-prisma, python, react *)
  output : string;         (* --output, default '.' *)
  force : bool;            (* --force, default false *)
}.

(** The answers of the customization prompt. *)
Record Answers := {
  port : string;
  entrypoint : string;
}.

(** Text of a template literal: a line break, the indentation of the
    template in the source, the line. *)
Definition spaces (n : nat) : string := String.concat "" (repeat " " n).
Definition tline (indent : nat) (s : string) : string := nl +:+ spaces indent +:+ s.
Definition tlines (indent : nat) (ls : list string) : string :=
  String.concat "" (map (tline indent) ls).

Section Content.
Context `{NodeLib}.

(** Helper: Generate Dockerfile content based on stack *)
Definition generateDockerfileContent (stack : option string) (answers : Answers) : string :=
  if strict_eq stack "node-prisma" then
    dedent
      [ tlines 8 [ "FROM node:20 AS builder";
                   "WORKDIR /app";
                   "COPY package*.json ./";
                   "RUN npm ci";
                   "COPY . .";
                   "RUN npx prisma generate";
                   "RUN npm run build" ]
        +:+ nl
        +:+ tlines 8 [ "FROM node:20-slim";
                       "WORKDIR /app";
                       "COPY --from=builder /app/dist ./dist";
                       "COPY --from=builder /app/node_modules ./node_modules";
                       "COPY --from=builder /app/prisma ./prisma";
                       "ENV NODE_ENV=production";
                       "EXPOSE " ];
        tline 8 ("CMD [" +:+ dquote +:+ "node" +:+ dquote +:+ ", " +:+ dquote);
        dquote +:+ "]" +:+ tline 6 "" ]
      [ port answers; entrypoint answers ]
  else if strict_eq stack "python" then
    dedent
      [ tlines 8 [ "FROM python:3.10-slim";
                   "WORKDIR /app";
                   "COPY requirements.txt ./";
                   "RUN pip install -r requirements.txt";
                   "COPY . .";
                   "EXPOSE " ];
        tline 8 ("CMD [" +:+ dquote +:+ "python" +:+ dquote +:+ ", " +:+ dquote);
        dquote +:+ "]" +:+ tline 6 "" ]
      [ port answers; entrypoint answers ]
  else if strict_eq stack "react" then
    dedent
      [ tlines 8 [ "FROM node:20 AS builder";
                   "WORKDIR /app";
                   "COPY package*.json ./";
                   "RUN npm ci";
                   "COPY . .";
                   "RUN npm run build" ]
        +:+ nl
        +:+ tlines 8 [ "FROM nginx:alpine";
                       "COPY --from=builder /app/build /usr/share/nginx/html";
                       "EXPOSE " ];
        tline 8 ("CMD [" +:+ dquote +:+ "nginx" +:+ dquote +:+ ", " +:+ dquote +:+ "-g"
                 +:+ dquote +:+ ", " +:+ dquote +:+ "daemon off;" +:+ dquote +:+ "]")
        +:+ tline 6 "" ]
      [ port answers ]
  else
    dedent
      [ tlines 8 [ "# Default/generic Dockerfile - customize me!";
                   "FROM alpine";
                   "WORKDIR /app";
                   "COPY . .";
                   "EXPOSE " ];
        tline 8 ("CMD [" +:+ dquote +:+ "echo" +:+ dquote +:+ ", " +:+ dquote
                 +:+ "Hello from generic app" +:+ dquote +:+ "]")
        +:+ tline 6 "" ]
      [ port answers ].

(** Helper: Generate docker-compose.yml content *)
Definition generateComposeContent (stack : option string) (answers : Answers) : string :=
  dedent
    [ tlines 6 [ "version: '3.8'";
                 "services:";
                 "  app:";
                 "    build: .";
                 "    ports:";
                 "      - " +:+ dquote ];
      ":";
      dquote
      +:+ tlines 6 [ "    environment:";
                     "      - NODE_ENV=production  # Adjust for your stack (e.g., PYTHON_ENV for Python)" ]
      +:+ tline 4 "" ]
    [ port answers; port answers ].

End Content.

Section Run.
Context `{NodeLib} (w : World).

(** Helper: Auto-detect stack by checking project files *)
Definition detectStack (outputDir : string) : Cmd (option string) :=
  hasPackageJson ← existsSync (path_join outputDir "package.json");
  if (hasPackageJson : bool) then mret (Some "node-prisma")
  else
    hasRequirements ← existsSync (path_join outputDir "requirements.txt");
    if (hasRequirements : bool) then mret (Some "python")
    else
      looksLikeReact ←
        (hasPackageJson' ← existsSync (path_join outputDir "package.json");
         if (hasPackageJson' : bool)
         then existsSync (path_join outputDir "src/index.js")
         else mret false);
      if (looksLikeReact : bool) then mret (Some "react")
      else mret None.

(** Step 1: Auto-detect stack if not specified *)
Definition resolveStack (flags : Flags) : Cmd (option string) :=
  if negb (truthy (stack flags)) then
    detectedStack ← detectStack (output flags);
    log (AutoDetected (if truthy detectedStack then default "" detectedStack else "unknown"));;
    if negb (truthy detectedStack) then
      chosen ← prompt_input w QStack;
      mret (Some chosen)
    else mret detectedStack
  else mret (stack flags).

(** Steps 3 and 4: prompts for customization, then both files are written *)
Definition promptAndWrite (detectedStack : option string)
    (dockerfilePath composePath : string) : Cmd unit :=
  answeredPort ← prompt_input w QPort;
  answeredEntrypoint ←
    prompt_input w (QEntrypoint (if strict_eq detectedStack "python"
                                 then "app.py" else "dist/server.js"));
  let answers := {| port := answeredPort; entrypoint := answeredEntrypoint |} in
  writeFile dockerfilePath (generateDockerfileContent detectedStack answers);;
  log (DockerfileWritten dockerfilePath);;
  writeFile composePath (generateComposeContent detectedStack answers);;
  log (ComposeWritten composePath);;
  log FilesReady.

Definition run (flags : Flags) : Cmd unit :=
  log (GenerateStarting (output flags));;
  detectedStack ← resolveStack flags;
  (* Step 2: Check for existing files *)
  let dockerfilePath := path_join (output flags) "Dockerfile" in
  let composePath := path_join (output flags) "docker-compose.yml" in
  dockerfileExists ← existsSync dockerfilePath;
  composeExists ← existsSync composePath;
  if (dockerfileExists || composeExists) && negb (force flags) then
    log (ExistingFiles (if dockerfileExists then "Dockerfile" else "")
                       (if composeExists then "docker-compose.yml" else ""));;
    overwrite ← prompt_confirm w QOverwrite;
    if negb overwrite then
      log GenerationSkipped
    else
      promptAndWrite detectedStack dockerfilePath composePath
  else
    promptAndWrite detectedStack dockerfilePath composePath.

End Run.
End Generate.

(** * The generate command of src/commands/generate.ts

    The file src/commands/generate.ts holds a second [Generate] class: it has
    no [--force] flag, does not look at the output directory before writing
    and has no [detectStack]. *)

Module GenerateUnguarded.

Record Flags := {
  stack : string;    (* --stack, one of node-prisma, react, python; default node-prisma *)
  output : string;   (* --output, default '.' *)
}.

Section Run.
Context `{NodeLib} (w : World).

Definition dockerfileTemplate (port entrypoint : string) : string :=
  Generate.tlines 0 [ "FROM node:20 AS builder";
                      "WORKDIR /app";
                      "COPY package*.json ./";
                      "RUN npm ci";
                      "COPY . .";
                      "RUN npx prisma generate";
                      "RUN npm run build" ]
  +:+ nl
  +:+ Generate.tlines 0 [ "FROM node:20-slim";
                          "WORKDIR /app";
                          "COPY --from=builder /app/dist ./dist";
                          "COPY --from=builder /app/node_modules ./node_modules";
                          "COPY --from=builder /app/prisma ./prisma";
                          "ENV NODE_ENV=production";
                          "EXPOSE " +:+ port;
                          "CMD [" +:+ dquote +:+ "node" +:+ dquote +:+ ", " +:+ dquote
                            +:+ entrypoint +:+ dquote +:+ "]" ]
  +:+ Generate.tline 4 "".

Definition composeTemplate (port : string) : string :=
  Generate.tlines 0 [ "version: '3.8'";
                      "services:";
                      "  app:";
                      "    build: .";
                      "    ports:";
                      "      - " +:+ dquote +:+ port +:+ ":" +:+ port +:+ dquote;
                      "    environment:";
                      "      - NODE_ENV=production" ]
  +:+ Generate.tline 4 "".

Definition run (flags : Flags) : Cmd unit :=
  log (GeneratingFor (stack flags));;
  log WhyDockerFiles;;
  answeredPort ← prompt_input w QPort;
  answeredEntrypoint ← prompt_input w (QEntrypoint "dist/server.js");
  let dockerfileContent := trim (dockerfileTemplate answeredPort answeredEntrypoint) in
  (* Basic stack variations *)
  let dockerfileContent :=
    if String.eqb (stack flags) "react" then "# TODO: React-specific Dockerfile"
    else if String.eqb (stack flags) "python" then "# TODO: Python-specific Dockerfile"
    else dockerfileContent in
  let dockerfilePath := path_join (output flags) "Dockerfile" in
  writeFile dockerfilePath dockerfileContent;;
  log (DockerfileGenerated dockerfilePath);;
  let composeContent := trim (composeTemplate answeredPort) in
  let composePath := path_join (output flags) "docker-compose.yml" in
  writeFile composePath composeContent;;
  log (ComposeGenerated composePath);;
  log FilesReadyNextSteps;;
  log TipCustomize.

End Run.
End GenerateUnguarded.

(** * The notify command

    [Notify.run] reads the SMTP settings from [process.env], prompts, and
    sends one mail through nodemailer.  It is the only command with a
    [try]/[catch]: a rejected [sendMail] is reported, not thrown.  The
    command has its own questions, messages and events. *)

Module Notify.

Record Flags := {
  config : bool;         (* --config, default false *)
  to : option string;    (* --to *)
  subject : string;      (* --subject, default 'HarborCLI Notification' *)
  message : string;      (* --message, default 'Test notification from HarborCLI.' *)
}.

Inductive question : Type :=
| QHost      (* input, 'SMTP Host?', default smtp.gmail.com *)
| QSmtpPort  (* input, 'SMTP Port?', default 587 *)
| QUser      (* input, 'SMTP Username?' *)
| QPass      (* password, 'SMTP Password?' *)
| QTo.       (* input, 'Recipient email?' *)

(** The options object given to [nodemailer.createTransport]; [port] is the
    value of SMTP_PORT, which the command passes through [Number]. *)
Record Transport := {
  host : option string;
  port : option string;
  secure : bool;
  auth_user : option string;
  auth_pass : option string;
}.

(** The message object given to [transporter.sendMail]. *)
Record Mail := {
  mail_from : option string;
  mail_to : string;
  mail_subject : string;
  mail_text : string;
}.

Inductive notice : Type :=
| SetupStarting
| ConfigurationComplete (host port user pass : string)
| MissingCredentials
| SendingTo (to : string)
| EmailSent (subject : string)
| ErrorSending (err : error)
| SetupDone.

Inductive event : Type :=
| Log (m : notice)
| Prompt (q : question)
| CreateTransport (options : Transport)
| SendMail (mail : Mail).

Record World := {
  (** what the operator types at a question *)
  answer : question -> string;
  (** [None]: the mail is accepted; [Some e]: [sendMail] rejects with [e] *)
  sendMail_outcome : Transport -> Mail -> option error;
}.

(** A step of the command: its outcome and the events it produced. *)
Definition Act (A : Type) : Type := outcome A * list event.

Definition ret {A} (a : A) : Act A := (Returned a, []).

Definition bind {A B} (m : Act A) (f : A -> Act B) : Act B :=
  match m with
  | (Returned a, t1) => match f a with (r, t2) => (r, t1 ++ t2) end
  | (Threw e, t1) => (Threw e, t1)
  end.

(** [try { body } catch (error) { handler(error) }] *)
Definition try_catch {A} (body : Act A) (handler : error -> Act A) : Act A :=
  match body with
  | (Returned a, t1) => (Returned a, t1)
  | (Threw e, t1) => match handler e with (r, t2) => (r, t1 ++ t2) end
  end.

Definition log (m : notice) : Act unit := (Returned tt, [Log m]).

Section Run.
Context (w : World).

Definition prompt (q : question) : Act string := (Returned (answer w q), [Prompt q]).

(** [await transporter.sendMail(mail)] *)
Definition sendMail (transporter : Transport) (mail : Mail) : Act unit :=
  match sendMail_outcome w transporter mail with
  | None => (Returned tt, [SendMail mail])
  | Some e => (Threw e, [SendMail mail])
  end.

(** [nodemailer.createTransport(options)] *)
Definition createTransport (options : Transport) : Act Transport :=
  (Returned options, [CreateTransport options]).

Definition run (flags : Flags) (env : gmap string string) : Act unit :=
  bind (log SetupStarting) (fun _ =>
  (* Step 1: Configure SMTP if requested or missing *)
  if config flags || negb (truthy (env !! "SMTP_HOST")) then
    bind (prompt QHost) (fun answeredHost =>
    bind (prompt QSmtpPort) (fun answeredPort =>
    bind (prompt QUser) (fun answeredUser =>
    bind (prompt QPass) (fun answeredPass =>
    log (ConfigurationComplete answeredHost answeredPort answeredUser answeredPass)))))
  (* Step 2: Validate Config *)
  else if negb (truthy (env !! "SMTP_USER")) || negb (truthy (env !! "SMTP_PASS")) then
    log MissingCredentials
  else
    (* Step 3: Send Test Email *)
    bind (if negb (truthy (to flags)) then prompt QTo
          else ret (default "" (to flags))) (fun recipient =>
    bind (log (SendingTo recipient)) (fun _ =>
    bind (createTransport
            {| host := env !! "SMTP_HOST";
               port := env !! "SMTP_PORT";
               secure := false;
               auth_user := env !! "SMTP_USER";
               auth_pass := env !! "SMTP_PASS" |}) (fun transporter =>
    bind (try_catch
            (bind (sendMail transporter
                     {| mail_from := env !! "SMTP_USER";
                        mail_to := recipient;
                        mail_subject := subject flags;
                        mail_text := message flags |}) (fun _ =>
             log (EmailSent (subject flags))))
            (fun err => log (ErrorSending err))) (fun _ =>
    log SetupDone))))).

End Run.
End Notify.

(** * A model of the library functions, for running the commands

    [path.join] for a directory without trailing separator, [trim] and
    [dedent] for templates whose interpolated values hold no line break:
    the interpolated text is split into lines, the smallest indentation of
    the indented lines is removed from every indented line, and the result
    is trimmed. *)

Module NodeModel.

Definition join (dir file : string) : string :=
  if String.eqb dir "." || String.eqb dir "" then file
  else dir +:+ "/" +:+ file.

Definition is_space (c : ascii) : bool :=
  let n := nat_of_ascii c in
  Nat.eqb n 32 || Nat.eqb n 9 || Nat.eqb n 10 || Nat.eqb n 13.

Fixpoint drop_spaces (l : list ascii) : list ascii :=
  match l with
  | c :: l' => if is_space c then drop_spaces l' else l
  | [] => []
  end.

Definition trim_chars (l : list ascii) : list ascii :=
  rev (drop_spaces (rev (drop_spaces l))).

Definition trim (s : string) : string :=
  string_of_list_ascii (trim_chars (list_ascii_of_string s)).

Fixpoint interleave (parts values : list string) : string :=
  match parts, values with
  | p :: parts', v :: values' => p +:+ v +:+ interleave parts' values'
  | p :: parts', [] => p +:+ interleave parts' []
  | [], _ => ""
  end.

Fixpoint split_lines (cur : list ascii) (l : list ascii) : list (list ascii) :=
  match l with
  | [] => [rev cur]
  | c :: l' =>
      if Nat.eqb (nat_of_ascii c) 10 then rev cur :: split_lines [] l'
      else split_lines (c :: cur) l'
  end.

Fixpoint indentation (l : list ascii) : nat :=
  match l with
  | c :: l' => if is_space c then S (indentation l') else 0
  | [] => 0
  end.

(** Indentation of a line matched by [/^(\s+)\S+/]. *)
Definition indent_of (l : list ascii) : option nat :=
  let n := indentation l in
  if Nat.ltb 0 n && Nat.ltb n (length l) then Some n else None.

Definition min_indent (ls : list (list ascii)) : option nat :=
  fold_right
    (fun l acc =>
       match indent_of l, acc with
       | Some n, Some m => Some (Nat.min n m)
       | Some n, None => Some n
       | None, _ => acc
       end) None ls.

Definition strip (n : nat) (l : list ascii) : list ascii :=
  match l with
  | c :: _ => if is_space c then skipn n l else l
  | [] => []
  end.

Fixpoint join_lines (ls : list (list ascii)) : list ascii :=
  match ls with
  | [] => []
  | [l] => l
  | l :: ls' => l ++ ascii_of_nat 10 :: join_lines ls'
  end.

Definition dedent (parts values : list string) : string :=
  let ls := split_lines [] (list_ascii_of_string (interleave parts values)) in
  let ls' := match min_indent ls with
             | Some n => map (strip n) ls
             | None => ls
             end in
  string_of_list_ascii (trim_chars (join_lines ls')).

Definition lib : NodeLib :=
  Build_NodeLib join dedent trim.

End NodeModel.

(** * Reading traces *)

(** [starts_with p s]: the string [s] begins with [p]. *)
Fixpoint starts_with (p s : string) : bool :=
  match p with
  | EmptyString => true
  | String a p' =>
      match s with
      | String b s' => Ascii.eqb a b && starts_with p' s'
      | EmptyString => false
      end
  end.

(** Events of step 1 of migrate that run the build and publish tool. *)
Definition is_build_exec (e : event) : bool :=
  match e with
  | Exec c => starts_with "docker buildx build " c
  | _ => false
  end.

(** Events produced by step 2 of migrate (Data Sync). *)
Definition is_data_sync_event (e : event) : bool :=
  match e with
  | Log (SyncingData _) | Log DataDumped | Log SkippingDataSync => true
  | Prompt QDbName => true
  | Exec c => starts_with "pg_dump " c || starts_with "mysqldump " c
  | _ => false
  end.

(** Events produced by step 3 of migrate (Staging Deployment). *)
Definition is_deployment_event (e : event) : bool :=
  match e with
  | Log CheckingDaemon | Log (DeployingToVps _ _) | Log DeployingLocally
  | Log StagingRunning => true
  | DockerVersion => true
  | Exec c => String.eqb c Migrate.compose_up_command
  | _ => false
  end.

(** The failure, if any, with which the outside world answers an event. *)
Definition failure_of (w : World) (e : event) : option error :=
  match e with
  | Exec c => exec_outcome w c
  | DockerVersion => docker_version_outcome w
  | DockerListContainers =>
      match docker_list_outcome w with inl err => Some err | inr _ => None end
  | DockerInspect id =>
      match docker_inspect_outcome w id with inl err => Some err | inr _ => None end
  | DockerLogs id _ =>
      match docker_logs_outcome w id with inl err => Some err | inr _ => None end
  | Log _ | Prompt _ | WriteFile _ _ => None
  end.

(** * The properties as the specification states them, and sample worlds *)

Definition is_log (e : event) : bool :=
  match e with Log _ => true | _ => false end.

Definition is_write (e : event) : bool :=
  match e with WriteFile _ _ => true | _ => false end.

Definition exists_in (fs : filesystem) (p : string) : bool :=
  match fs !! p with Some _ => true | None => false end.

(** The decision of the overwrite guard of generate: no artifact exists, or
    [--force] is given, or the operator answers yes to the overwrite
    question. *)
Definition authorized `{NodeLib} (w : World) (flags : Generate.Flags)
    (fs : filesystem) : bool :=
  negb (exists_in fs (path_join (Generate.output flags) "Dockerfile")
        || exists_in fs (path_join (Generate.output flags) "docker-compose.yml"))
  || Generate.force flags
  || confirm w QOverwrite.

(** The stack that step 1 of generate settles on. *)
Definition resolved_stack `{NodeLib} (w : World) (flags : Generate.Flags)
    (fs : filesystem) : option string :=
  match result_of (Generate.resolveStack w flags fs) with
  | Returned st => st
  | Threw _ => None
  end.

(** The answers of the operator to the customization prompt. *)
Definition answers_for (w : World) (detectedStack : option string) : Generate.Answers :=
  {| Generate.port := input w QPort;
     Generate.entrypoint :=
       input w (QEntrypoint (if strict_eq detectedStack "python"
                             then "app.py" else "dist/server.js")) |}.

(** C3 as stated: no failure leaves [Migrate.run] as an exception. *)
Definition failures_are_handled `{NodeLib} (w : World) (flags : Migrate.Flags)
    (fs : filesystem) : Prop :=
  forall err, result_of (Migrate.run w flags fs) <> Threw err.

(** The dump command that the Data Sync step runs for postgres and mysql. *)
Definition dump_command (w : World) (flags : Migrate.Flags) : string :=
  if String.eqb (Migrate.dbType flags) "postgres"
  then Migrate.pg_dump_command (input w QDbName)
  else Migrate.mysqldump_command (input w QDbName).

(** C4 as stated: after a failed dump something is logged (the warning) and
    the Staging Deployment step still runs. *)
Definition dump_failure_is_tolerated `{NodeLib} (w : World) (flags : Migrate.Flags)
    (fs : filesystem) : Prop :=
  let t := trace_of (Migrate.run w flags fs) in
  let after := events_after (is_exec (dump_command w flags)) t in
  Migrate.dbType flags = "postgres" \/ Migrate.dbType flags = "mysql" ->
  In (Exec (dump_command w flags)) t ->
  (exists err, exec_outcome w (dump_command w flags) = Some err) ->
  existsb is_log after = true /\ existsb is_deployment_event after = true.

(** C7 as stated: every inspected container that is not running gets the
    not-running diagnosis, and every inspected container without port
    bindings gets the no-ports diagnosis. *)
Definition diagnoses_always_emitted (w : World) (flags : Troubleshoot.Flags)
    (fs : filesystem) : Prop :=
  let t := trace_of (Troubleshoot.run w flags fs) in
  forall id info,
    In (DockerInspect id) t ->
    docker_inspect_outcome w id = inr info ->
    (State_Status info <> "running" ->
       In (Log (NotRunning (State_Status info) (slice0 12 id))) t)
    /\ (NetworkSettings_Ports info = None \/ NetworkSettings_Ports info = Some ∅ ->
        In (Log NoPortsExposed) t).

(** C10 as stated: when the operator declines the build, the build is
    skipped and the run enters the Data Sync step and the Staging Deployment
    step. *)
Definition declined_build_reaches_deployment `{NodeLib} (w : World)
    (flags : Migrate.Flags) (fs : filesystem) : Prop :=
  let t := trace_of (Migrate.run w flags fs) in
  Migrate.force flags = false ->
  In (Prompt QBuild) t ->
  confirm w QBuild = false ->
  existsb is_build_exec t = false
  /\ existsb is_data_sync_event t = true
  /\ In (Log CheckingDaemon) t.

(** What the container runtime reports for the sample container. *)
Definition sample_inspect (status : string)
    (ports : option (gmap string (option (list PortBinding)))) : ContainerInspectInfo :=
  {| Name := "/web"; State_Status := status;
     NetworkSettings_Ports := ports; Config_Image := "acme/web:latest" |}.

(** A world in which the operator answers every confirmation with [yes] and
    accepts the defaults, [failing] tells which external commands fail, and
    the container runtime lists one container and answers [inspected] and
    [logs] for it. *)
Definition sample_world (yes : bool) (failing : string -> option error)
    (inspected : ContainerInspectInfo) (logs : error + string) : World :=
  {| confirm := fun _ => yes;
     input := fun q =>
       match q with
       | QDbName => "yourdb"
       | QPort => "3000"
       | QEntrypoint d => d
       | QStack => "other"
       | QContainerId choices => hd "" (map snd choices)
       | _ => ""
       end;
     exec_outcome := failing;
     docker_version_outcome := None;
     docker_list_outcome :=
       inr [ {| Id := "4f2a9c01d7e3b5a6"; Names := ["/web"]; Status := "Exited (1) 2 minutes ago" |} ];
     docker_inspect_outcome := fun _ => inr inspected;
     docker_logs_outcome := fun _ => logs |}.

Definition nothing_fails : string -> option error := fun _ => None.

Definition fails_when (program : string) (err : error) : string -> option error :=
  fun cmd => if starts_with program cmd then Some err else None.

Definition healthy : ContainerInspectInfo :=
  sample_inspect "running" (Some {[ "3000/tcp" := Some [ {| HostIp := "0.0.0.0"; HostPort := "3000" |} ] ]}).

Definition project_with_artifacts : filesystem :=
  {[ "Dockerfile" := "FROM alpine"; "docker-compose.yml" := "version: '3.8'" ]}.

Definition project_with_package_json : filesystem :=
  {[ "package.json" := "{}" ]}.

Definition exited_without_ports : ContainerInspectInfo :=
  sample_inspect "exited" (Some ∅).

Definition generate_flags (force : bool) : Generate.Flags :=
  {| Generate.stack := None; Generate.output := "."; Generate.force := force |}.

Definition migrate_flags (dbType : string) (vps : option string) (force : bool)
  : Migrate.Flags :=
  {| Migrate.image := "acme/web:latest"; Migrate.vps := vps;
     Migrate.dbType := dbType; Migrate.force := force |}.

(** A container runtime without containers. *)
Definition empty_runtime : World :=
  {| confirm := fun _ => true;
     input := fun _ => "";
     exec_outcome := nothing_fails;
     docker_version_outcome := None;
     docker_list_outcome := inr [];
     docker_inspect_outcome := fun _ => inl "no such container";
     docker_logs_outcome := fun _ => inl "no such container" |}.

(** Sample worlds: which external call fails, and what the operator answers. *)
Definition build_fails : World :=
  sample_world true (fails_when "docker buildx" "ERROR: failed to solve") healthy (inr "").
Definition dump_fails (yes : bool) : World :=
  sample_world yes (fails_when "pg_dump" "pg_dump: command not found") healthy (inr "").
Definition all_well (yes : bool) : World :=
  sample_world yes nothing_fails healthy (inr "listening on 3000").
Definition logs_unavailable : World :=
  sample_world true nothing_fails exited_without_ports
    (inl "configured logging driver does not support reading").
Definition logs_available : World :=
  sample_world true nothing_fails exited_without_ports (inr "exited with code 1").
Definition web : Troubleshoot.Flags := {| Troubleshoot.container := Some "web" |}.

(** ** Further readings of traces *)

(** The step of migrate that an event belongs to: 0 before the steps, 1 Build
    and Push, 2 Data Sync, 3 Staging Deployment, 4 the closing message. *)
Definition migrate_stage (e : event) : nat :=
  match e with
  | Log (MigrateStarting _) | Log MissingDockerFiles => 0
  | Prompt QBuild | Log BuildingImage | Log ImageBuilt => 1
  | Log MigrationComplete => 4
  | _ =>
      if is_build_exec e then 1
      else if is_data_sync_event e then 2
      else if is_deployment_event e then 3
      else 5
  end.

Fixpoint nondecreasing (l : list nat) : bool :=
  match l with
  | a :: l' =>
      match l' with
      | b :: _ => Nat.leb a b && nondecreasing l'
      | [] => true
      end
  | [] => true
  end.

(** The transport that notify builds from the environment. *)
Definition smtp_transport (env : gmap string string) : Notify.Transport :=
  {| Notify.host := env !! "SMTP_HOST";
     Notify.port := env !! "SMTP_PORT";
     Notify.secure := false;
     Notify.auth_user := env !! "SMTP_USER";
     Notify.auth_pass := env !! "SMTP_PASS" |}.

(** The recipient: --to when given, else what the operator types. *)
Definition recipient (w : Notify.World) (flags : Notify.Flags) : string :=
  if truthy (Notify.to flags) then default "" (Notify.to flags)
  else Notify.answer w Notify.QTo.

Definition test_mail (w : Notify.World) (flags : Notify.Flags)
    (env : gmap string string) : Notify.Mail :=
  {| Notify.mail_from := env !! "SMTP_USER";
     Notify.mail_to := recipient w flags;
     Notify.mail_subject := Notify.subject flags;
     Notify.mail_text := Notify.message flags |}.

(** notify is ready to send: not in configuration mode and the host, the
    user and the password are set. *)
Definition smtp_ready (flags : Notify.Flags) (env : gmap string string) : bool :=
  negb (Notify.config flags)
  && truthy (env !! "SMTP_HOST")
  && truthy (env !! "SMTP_USER")
  && truthy (env !! "SMTP_PASS").

(** Sample runs of notify. *)
Definition smtp_env : gmap string string :=
  {[ "SMTP_HOST" := "smtp.example.org"; "SMTP_PORT" := "587";
     "SMTP_USER" := "ops@example.org"; "SMTP_PASS" := "app-password" ]}.

Definition notify_flags (config : bool) (to : option string) : Notify.Flags :=
  {| Notify.config := config; Notify.to := to;
     Notify.subject := "HarborCLI Notification";
     Notify.message := "Test notification from HarborCLI." |}.

Definition mail_world (rejected : option error) : Notify.World :=
  {| Notify.answer := fun q =>
       match q with
       | Notify.QHost => "smtp.gmail.com"
       | Notify.QSmtpPort => "587"
       | Notify.QUser => "me@gmail.com"
       | Notify.QPass => "hunter2"
       | Notify.QTo => "admin@example.org"
       end;
     Notify.sendMail_outcome := fun _ _ => rejected |}.

(** A container whose port is exposed but not published. *)
Definition exposed_only : ContainerInspectInfo :=
  sample_inspect "running" (Some {[ "80/tcp" := None ]}).

(** * Theorems *)

(** ** Proof automation: running a command symbolically *)

Ltac unfold_cmd_in H :=
  cbv [mbind mret Cmd_bind Cmd_ret log prompt_confirm prompt_input execSync
       existsSync writeFile docker_version docker_listContainers docker_inspect
       docker_logs] in H.

Arguments Migrate.build_command : simpl never.
Arguments Migrate.pg_dump_command : simpl never.
Arguments Migrate.mysqldump_command : simpl never.
Arguments Migrate.compose_up_command : simpl never.
Arguments Generate.generateDockerfileContent : simpl never.
Arguments Generate.generateComposeContent : simpl never.
Arguments Generate.resolveStack : simpl never.

Ltac unfold_commands :=
  unfold Migrate.build_command, Migrate.pg_dump_command,
         Migrate.mysqldump_command, Migrate.compose_up_command in *.

(** One case distinction on a flag or on an answer of the outside world that
    the run in [H] depends on, the earlier steps of migrate first. *)
Ltac migrate_step H :=
  match type of H with
  | context [@lookup _ _ _ _ ?k ?fs] => destruct (fs !! k) eqn:?
  | context [Migrate.force ?f] => destruct (Migrate.force f) eqn:?
  | context [confirm ?w QBuild] => destruct (confirm w QBuild) eqn:?
  | context [exec_outcome ?w (Migrate.build_command ?i)] =>
      destruct (exec_outcome w (Migrate.build_command i)) eqn:?
  | context [String.eqb (Migrate.dbType ?f) ?b] =>
      destruct (String.eqb (Migrate.dbType f) b) eqn:?
  | context [exec_outcome ?w (Migrate.pg_dump_command ?n)] =>
      destruct (exec_outcome w (Migrate.pg_dump_command n)) eqn:?
  | context [exec_outcome ?w (Migrate.mysqldump_command ?n)] =>
      destruct (exec_outcome w (Migrate.mysqldump_command n)) eqn:?
  | context [docker_version_outcome ?w] => destruct (docker_version_outcome w) eqn:?
  | context [truthy ?v] => destruct (truthy v) eqn:?
  | context [exec_outcome ?w ?c] => destruct (exec_outcome w c) eqn:?
  end.

(** Replaces the run of migrate in the goal and in the hypotheses by its
    outcome, filesystem and trace, one goal per path through the command. *)
Ltac migrate_paths :=
  match goal with
  | |- context [Migrate.run ?w ?flags ?fs] =>
      let r := fresh "r" in
      let Hr := fresh "Hrun" in
      remember (Migrate.run w flags fs) as r eqn:Hr in *;
      unfold Migrate.run, Migrate.checkDockerFiles, Migrate.buildAndPush,
             Migrate.dataSync, Migrate.stagingDeployment in Hr;
      unfold_cmd_in Hr; cbn in Hr;
      repeat (migrate_step Hr; cbn in Hr);
      subst r; cbv [result_of trace_of fs_of fst snd] in *
  end.

(** The same for troubleshoot. *)
Ltac troubleshoot_step H :=
  match type of H with
  | context [docker_list_outcome ?w] =>
      destruct (docker_list_outcome w) as [? | [ | ? ?]] eqn:?
  | context [truthy ?v] => destruct (truthy v) eqn:?
  | context [String.eqb (input ?w ?q) ?b] => destruct (String.eqb (input w q) b) eqn:?
  | context [docker_inspect_outcome ?w ?i] => destruct (docker_inspect_outcome w i) eqn:?
  | context [String.eqb (State_Status ?c) ?b] =>
      destruct (String.eqb (State_Status c) b) eqn:?
  | context [confirm ?w QCheckLogs] => destruct (confirm w QCheckLogs) eqn:?
  | context [docker_logs_outcome ?w ?i] => destruct (docker_logs_outcome w i) eqn:?
  | context [Troubleshoot.ports_configured ?p] =>
      destruct (Troubleshoot.ports_configured p) eqn:?
  end.

Ltac troubleshoot_paths :=
  match goal with
  | |- context [Troubleshoot.run ?w ?flags ?fs] =>
      let r := fresh "r" in
      let Hr := fresh "Hrun" in
      remember (Troubleshoot.run w flags fs) as r eqn:Hr in *;
      unfold Troubleshoot.run, Troubleshoot.selectContainer, Troubleshoot.logCheck,
             Troubleshoot.commonChecks in Hr;
      unfold_cmd_in Hr; cbn in Hr;
      repeat (troubleshoot_step Hr; cbn in Hr);
      subst r; cbv [result_of trace_of fs_of fst snd] in *
  end.

(** The case distinctions of generate. *)
Ltac generate_step H :=
  match type of H with
  | context [truthy ?v] => destruct (truthy v) eqn:?
  | context [@lookup _ _ _ _ ?k ?fs] => destruct (fs !! k) eqn:?
  | context [String.eqb (input ?w ?q) ?b] => destruct (String.eqb (input w q) b) eqn:?
  | context [Generate.force ?f] => destruct (Generate.force f) eqn:?
  | context [confirm ?w QOverwrite] => destruct (confirm w QOverwrite) eqn:?
  end.

(** An equation between two different events. *)
Ltac absurd_event H :=
  solve [ discriminate H
        | exfalso; injection H; unfold_commands; cbn; discriminate ].

(** All the ways an event can be a member of an explicit trace. *)
Ltac split_in H :=
  cbn in H;
  repeat match type of H with
         | _ ∨ _ => destruct H as [H | H]
         | False => destruct H
         end;
  try absurd_event H.

(** Membership in an explicit trace. *)
Ltac in_solve := cbn; solve [repeat (first [left; reflexivity | right])].

(** [In e t <-> P] when both sides are decided on the current path. *)
Ltac iff_in :=
  split;
  [ let Hi := fresh "Hi" in
    intros Hi; split_in Hi;
    first [ reflexivity | congruence | intros ?; congruence ]
  | let Hp := fresh "Hp" in
    intros Hp;
    first [ in_solve | exfalso; congruence | exfalso; apply Hp; reflexivity ] ].

Lemma truthy_false (v : option string) :
  truthy v = false <-> v = None \/ v = Some "".
Proof.
  destruct v as [s|]; cbn.
  - rewrite negb_false_iff, String.eqb_eq. split.
    + intros ->. now right.
    + intros [Hn | Hs]; [discriminate | now injection Hs].
  - split; [now left | reflexivity].
Qed.

(** ** migrate *)

Section MigrateFacts.
Context `{NodeLib} (w : World).

Lemma migrate_missing_files (flags : Migrate.Flags) (fs : filesystem) :
  fs !! path_join "." "Dockerfile" = None
  \/ fs !! path_join "." "docker-compose.yml" = None ->
  Migrate.run w flags fs
  = (Returned tt, fs,
     [Log (MigrateStarting (Migrate.image flags)); Log MissingDockerFiles]).
Proof.
  intros Hmissing. migrate_paths; try reflexivity.
  all: destruct Hmissing; congruence.
Qed.


(** C3, as the code has it. No failure of an external process or of the
    container runtime is caught by migrate: if a call made during the run
    fails, the run ends at that call, which is the last event, and the failure
    leaves [run] as the thrown error; and a run that throws does so with the
    failure of its last call. *)
Theorem external_failure_propagates (flags : Migrate.Flags) (fs : filesystem) :
  let r := Migrate.run w flags fs in
  (forall ev err,
      In ev (trace_of r) -> failure_of w ev = Some err ->
      result_of r = Threw err /\ last (trace_of r) = Some ev)
  /\ (forall err,
        result_of r = Threw err ->
        exists ev, last (trace_of r) = Some ev /\ failure_of w ev = Some err).
Proof.
  intros r; subst r. migrate_paths.
  all: split;
    [ intros ev err Hin Hfail; split_in Hin; subst ev; cbn in Hfail;
      try congruence; (split; [congruence | reflexivity])
    | intros err Hthrew; try discriminate Hthrew;
      injection Hthrew as <-; eexists; (split; [reflexivity | cbn; assumption]) ].
Qed.

(** C4, as the code has it. With dbType postgres or mysql, a failing dump
    tool is not turned into a warning: the run ends in the failed outcome that
    carries the dump tool's error, nothing happens after the failed dump, and
    no event of the Staging Deployment step occurs. *)
Theorem dump_failure_aborts_migration
    (flags : Migrate.Flags) (fs : filesystem) (err : error) :
  let r := Migrate.run w flags fs in
  Migrate.dbType flags = "postgres" \/ Migrate.dbType flags = "mysql" ->
  In (Exec (dump_command w flags)) (trace_of r) ->
  exec_outcome w (dump_command w flags) = Some err ->
  result_of r = Threw err
  /\ events_after (is_exec (dump_command w flags)) (trace_of r) = []
  /\ existsb is_deployment_event (trace_of r) = false.
Proof.
  intros r Hdb Hin Hfail; subst r. unfold dump_command in *.
  migrate_paths; split_in Hin; try congruence.
  all: try (destruct Hdb as [Hdb | Hdb]; rewrite Hdb in *; discriminate).
  all: repeat split; cbn; rewrite ?String.eqb_refl; try reflexivity; congruence.
Qed.

(** C6. In a run that reaches the deployment selector (the query of the
    container runtime was made and succeeded), docker-compose up -d is run
    exactly when the vps target is absent or empty, and the manual
    remote-deployment instructions are logged exactly when it is not; and no
    run at all does both. *)
Theorem deployment_branch_exclusive (flags : Migrate.Flags) (fs : filesystem) :
  let t := trace_of (Migrate.run w flags fs) in
  let local := In (Exec Migrate.compose_up_command) t in
  let manual :=
    In (Log (DeployingToVps (default "" (Migrate.vps flags)) (Migrate.image flags))) t in
  (In DockerVersion t -> docker_version_outcome w = None ->
     (local <-> (Migrate.vps flags = None \/ Migrate.vps flags = Some ""))
     /\ (manual <-> ~ (Migrate.vps flags = None \/ Migrate.vps flags = Some "")))
  /\ ~ (local /\ manual).
Proof.
  intros t local manual; subst t local manual.
  rewrite <- truthy_false.
  migrate_paths.
  all: split; [ intros Hin Hok; split_in Hin; try congruence; split; iff_in | ].
  all: intros [Hl Hm]; split_in Hl; split_in Hm.
Qed.

(** C10, as the code has it. When the operator declines the build (force is
    false), the build tool is not run and the run enters the Data Sync step;
    it enters the Staging Deployment step exactly when no call of the Data
    Sync step fails; and the only image reference that the deployment
    instructions mention is the one given by --image. *)
Theorem declined_build_skips_to_data_sync (flags : Migrate.Flags) (fs : filesystem) :
  let t := trace_of (Migrate.run w flags fs) in
  Migrate.force flags = false ->
  In (Prompt QBuild) t ->
  confirm w QBuild = false ->
  existsb is_build_exec t = false
  /\ existsb is_data_sync_event t = true
  /\ (In (Log CheckingDaemon) t <->
      forall e, In e t -> is_data_sync_event e = true -> failure_of w e = None)
  /\ (forall v i, In (Log (DeployingToVps v i)) t -> i = Migrate.image flags).
Proof.
  intros t Hforce Hasked Hno; subst t.
  migrate_paths; split_in Hasked; try congruence.
  all: split; [reflexivity | split; [reflexivity | split]].
  all: try (intros v i Hin; split_in Hin; congruence).
  all: split.
  all: try (intros Hc; solve [split_in Hc]).
  all: try (intros _ ev Hev Hds; split_in Hev; subst ev;
            first [ assumption | reflexivity
                  | exfalso; vm_compute in Hds; discriminate Hds ]).
  all: try (intros _; in_solve).
  all: intros Hall; exfalso;
    match goal with
    | Hf : exec_outcome w ?c = Some _ |- _ =>
        assert (Hn : failure_of w (Exec c) = None)
          by (apply Hall; [in_solve | reflexivity]);
        cbn in Hn; congruence
    end.
Qed.

End MigrateFacts.

(** ** troubleshoot *)

Section TroubleshootFacts.
Context (w : World).

Lemma ports_configured_false (p : option (gmap string (option (list PortBinding)))) :
  Troubleshoot.ports_configured p = false <-> p = None \/ p = Some ∅.
Proof.
  destruct p as [m|]; unfold Troubleshoot.ports_configured.
  - rewrite Nat.ltb_ge. split.
    + intros Hs. right. f_equal. apply map_size_empty_iff. lia.
    + intros [Hn | Hs]; [discriminate|]. injection Hs as ->. now rewrite map_size_empty.
  - split; [now left | reflexivity].
Qed.

Lemma troubleshoot_no_containers (flags : Troubleshoot.Flags) (fs : filesystem) :
  docker_list_outcome w = inr [] ->
  Troubleshoot.run w flags fs
  = (Returned tt, fs,
     [Log TroubleshootStarting; DockerListContainers; Log NoContainersFound]).
Proof.
  intros Hlist. troubleshoot_paths; congruence.
Qed.

(** C7, as the code has it. For every container that troubleshoot inspects:
    if its status is not running, the not-running diagnosis is logged; if its
    port mapping is absent or empty, the no-ports diagnosis is logged provided
    the log step does not fail (the operator declines the logs, or the
    container runtime returns them); and when the operator asks for the logs
    and the container runtime fails to return them, the run ends with that
    error before the common checks. *)
Theorem diagnoses_when_checks_are_reached
    (flags : Troubleshoot.Flags) (fs : filesystem)
    (id : string) (info : ContainerInspectInfo) :
  let r := Troubleshoot.run w flags fs in
  In (DockerInspect id) (trace_of r) ->
  docker_inspect_outcome w id = inr info ->
  (State_Status info <> "running" ->
     In (Log (NotRunning (State_Status info) (slice0 12 id))) (trace_of r))
  /\ (NetworkSettings_Ports info = None \/ NetworkSettings_Ports info = Some ∅ ->
      (confirm w QCheckLogs = false \/ exists l, docker_logs_outcome w id = inr l) ->
      In (Log NoPortsExposed) (trace_of r))
  /\ (forall err,
        confirm w QCheckLogs = true -> docker_logs_outcome w id = inl err ->
        result_of r = Threw err /\ ~ In (Log RunningChecks) (trace_of r)).
Proof.
  intros r Hin Hinfo; subst r.
  troubleshoot_paths; split_in Hin; injection Hin as <-.
  all: match goal with
       | Hi : docker_inspect_outcome w _ = inl _ |- _ => congruence
       | Hi : docker_inspect_outcome w _ = inr ?c |- _ =>
           assert (c = info) as -> by congruence
       end.
  all: rewrite <- ports_configured_false, <- String.eqb_neq.
  all: split; [ intros Hs; first [congruence | in_solve] | split ].
  all: try (intros Hp [Hl | [lg Hl]]; first [congruence | in_solve]).
  all: intros err Hc Hl;
    first [ congruence | split; [congruence | intros Hr; solve [split_in Hr]] ].
Qed.

End TroubleshootFacts.

(** ** generate *)

Section GenerateFacts.
Context `{NodeLib} (w : World).

(** C9. Whatever files the directory holds, detectStack returns node-prisma
    when package.json exists, else python when requirements.txt exists, else
    undefined, without any effect; it never returns react, whose branch asks
    again for the package.json that the first check found missing. *)
Theorem detectStack_never_react (outputDir : string) (fs : filesystem) :
  let r := Generate.detectStack outputDir fs in
  r = (Returned
         (if exists_in fs (path_join outputDir "package.json") then Some "node-prisma"
          else if exists_in fs (path_join outputDir "requirements.txt") then Some "python"
          else None),
       fs, [])
  /\ result_of r <> Returned (Some "react").
Proof.
  intros r; subst r. unfold exists_in.
  remember (Generate.detectStack outputDir fs) as r eqn:Hr.
  unfold Generate.detectStack in Hr. unfold_cmd_in Hr. cbn in Hr.
  repeat (generate_step Hr; cbn in Hr); subst r; cbn.
  all: try congruence.
  all: split; [ reflexivity | discriminate ].
Qed.



(** C5. The two content functions of the template generator are
    deterministic: two calls with the same stack, port and entrypoint return
    the same Dockerfile text and the same docker-compose.yml text. *)
Theorem template_content_deterministic
    (stack1 stack2 : option string) (answers1 answers2 : Generate.Answers) :
  stack1 = stack2 ->
  Generate.port answers1 = Generate.port answers2 ->
  Generate.entrypoint answers1 = Generate.entrypoint answers2 ->
  Generate.generateDockerfileContent stack1 answers1
  = Generate.generateDockerfileContent stack2 answers2
  /\ Generate.generateComposeContent stack1 answers1
     = Generate.generateComposeContent stack2 answers2.
Proof.
  intros -> Hport Hentry.
  destruct answers1 as [p1 e1], answers2 as [p2 e2]; cbn in Hport, Hentry.
  subst p2 e2. split; reflexivity.
Qed.

(** The manifest depends on the port alone. *)
Lemma compose_content_depends_on_port
    (stack1 stack2 : option string) (answers1 answers2 : Generate.Answers) :
  Generate.port answers1 = Generate.port answers2 ->
  Generate.generateComposeContent stack1 answers1
  = Generate.generateComposeContent stack2 answers2.
Proof.
  intros Hport. unfold Generate.generateComposeContent. now rewrite Hport.
Qed.

(** The generate command of src/commands/generate.ts has no guard: it writes
    both files on every run, whatever the output directory holds. *)
Lemma unguarded_generate_always_writes (flags : GenerateUnguarded.Flags) (fs : filesystem) :
  let r := GenerateUnguarded.run w flags fs in
  result_of r = Returned tt
  /\ exists dockerfileContent composeContent,
       List.filter is_write (trace_of r)
       = [WriteFile (path_join (GenerateUnguarded.output flags) "Dockerfile")
            dockerfileContent;
          WriteFile (path_join (GenerateUnguarded.output flags) "docker-compose.yml")
            composeContent].
Proof.
  cbn. split; [reflexivity | do 2 eexists; reflexivity].
Qed.

End GenerateFacts.

(** C8. A migrate run in a directory without the Dockerfile or without
    docker-compose.yml logs the missing prerequisite and returns: its whole
    trace is the two log lines, so nothing is built, dumped or deployed and
    the filesystem is unchanged.  A troubleshoot run for which the container
    runtime lists no container logs that and returns: its whole trace is the
    list query between two log lines, so no container is inspected. *)
Theorem missing_prerequisite_returns_early `{NodeLib} (w : World)
    (mflags : Migrate.Flags) (tflags : Troubleshoot.Flags) (fs : filesystem) :
  (fs !! path_join "." "Dockerfile" = None
   \/ fs !! path_join "." "docker-compose.yml" = None ->
   Migrate.run w mflags fs
   = (Returned tt, fs,
      [Log (MigrateStarting (Migrate.image mflags)); Log MissingDockerFiles]))
  /\ (docker_list_outcome w = inr [] ->
      Troubleshoot.run w tflags fs
      = (Returned tt, fs,
         [Log TroubleshootStarting; DockerListContainers; Log NoContainersFound])).
Proof.
  split.
  - apply migrate_missing_files.
  - apply troubleshoot_no_containers.
Qed.

(** ** Sample runs *)


(** C3 as stated fails: with a failing build tool the run of migrate ends with
    the thrown error. *)
Lemma migrate_crashes_on_build_failure :
  ~ @failures_are_handled NodeModel.lib build_fails
      (migrate_flags "none" None true) project_with_artifacts.
Proof.
  intros Hhandled. apply (Hhandled "ERROR: failed to solve"). reflexivity.
Qed.

(** C3, as the code has it, on a run whose dump fails. *)
Lemma external_failure_propagates_witness :
  let r := @Migrate.run NodeModel.lib (dump_fails true) (migrate_flags "postgres" None true)
             project_with_artifacts in
  result_of r = Threw "pg_dump: command not found"
  /\ last (trace_of r) = Some (Exec (Migrate.pg_dump_command "yourdb")).
Proof.
  apply (proj1 (@external_failure_propagates NodeModel.lib (dump_fails true)
                  (migrate_flags "postgres" None true) project_with_artifacts)).
  - vm_compute. in_solve.
  - reflexivity.
Defined.

(** C4 as stated fails: after a failed pg_dump nothing is logged and the
    Staging Deployment step does not run. *)
Lemma dump_failure_stops_deployment :
  ~ @dump_failure_is_tolerated NodeModel.lib (dump_fails true)
      (migrate_flags "postgres" None true) project_with_artifacts.
Proof.
  intros Htolerated.
  destruct Htolerated as [Hwarned _].
  - now left.
  - vm_compute. in_solve.
  - now exists "pg_dump: command not found".
  - vm_compute in Hwarned. discriminate Hwarned.
Qed.

(** C4, as the code has it, on the same run. *)
Lemma dump_failure_aborts_migration_witness :
  let r := @Migrate.run NodeModel.lib (dump_fails true) (migrate_flags "postgres" None true)
             project_with_artifacts in
  result_of r = Threw "pg_dump: command not found"
  /\ events_after (is_exec (Migrate.pg_dump_command "yourdb")) (trace_of r) = []
  /\ existsb is_deployment_event (trace_of r) = false.
Proof.
  apply (@dump_failure_aborts_migration NodeModel.lib (dump_fails true)
           (migrate_flags "postgres" None true) project_with_artifacts
           "pg_dump: command not found").
  - now left.
  - vm_compute. in_solve.
  - reflexivity.
Defined.

(** C5 on the python templates. *)
Lemma template_content_deterministic_witness :
  @Generate.generateDockerfileContent NodeModel.lib (Some "python")
     {| Generate.port := "8000"; Generate.entrypoint := "app.py" |}
  = @Generate.generateDockerfileContent NodeModel.lib (Some "python")
      {| Generate.port := "8000"; Generate.entrypoint := "app.py" |}
  /\ @Generate.generateComposeContent NodeModel.lib (Some "python")
       {| Generate.port := "8000"; Generate.entrypoint := "app.py" |}
     = @Generate.generateComposeContent NodeModel.lib (Some "python")
         {| Generate.port := "8000"; Generate.entrypoint := "app.py" |}.
Proof.
  apply (@template_content_deterministic NodeModel.lib); reflexivity.
Defined.

(** C6 on a run without vps target. *)
Lemma deployment_branch_exclusive_witness :
  let t := trace_of (@Migrate.run NodeModel.lib (all_well true)
                       (migrate_flags "none" None true) project_with_artifacts) in
  (In (Exec Migrate.compose_up_command) t <-> (@None string = None \/ None = Some ""))
  /\ (In (Log (DeployingToVps "" "acme/web:latest")) t
      <-> ~ (@None string = None \/ None = Some "")).
Proof.
  apply (proj1 (@deployment_branch_exclusive NodeModel.lib (all_well true)
                  (migrate_flags "none" None true) project_with_artifacts)).
  - vm_compute. in_solve.
  - reflexivity.
Defined.

(** C7 as stated fails: an exited container without port bindings is
    inspected, the operator asks for the logs, the container runtime fails to
    return them, and the no-ports diagnosis is never logged. *)
Lemma no_ports_diagnosis_lost_when_logs_fail :
  ~ diagnoses_always_emitted logs_unavailable web ∅.
Proof.
  intros Hemitted.
  destruct (Hemitted "web" exited_without_ports) as [_ Hports].
  - vm_compute. in_solve.
  - reflexivity.
  - specialize (Hports (or_intror eq_refl)). vm_compute in Hports.
    repeat (destruct Hports as [Hports | Hports]; [discriminate Hports |]).
    exact Hports.
Qed.

(** C7, as the code has it: an exited container without port bindings gets
    both diagnoses when the logs are returned. *)
Lemma diagnoses_when_checks_are_reached_witness :
  let r := Troubleshoot.run logs_available web ∅ in
  In (Log (NotRunning "exited" "web")) (trace_of r)
  /\ In (Log NoPortsExposed) (trace_of r).
Proof.
  destruct (diagnoses_when_checks_are_reached logs_available web ∅ "web"
              exited_without_ports) as (Hstatus & Hports & _).
  - vm_compute. in_solve.
  - reflexivity.
  - split.
    + apply Hstatus. discriminate.
    + apply Hports.
      * now right.
      * right. now exists "exited with code 1".
Defined.

(** C8 on an empty directory and on a runtime without containers. *)
Lemma missing_prerequisite_returns_early_witness :
  @Migrate.run NodeModel.lib (all_well true) (migrate_flags "none" None true) ∅
  = (Returned tt, ∅, [Log (MigrateStarting "acme/web:latest"); Log MissingDockerFiles])
  /\ Troubleshoot.run empty_runtime web ∅
     = (Returned tt, ∅,
        [Log TroubleshootStarting; DockerListContainers; Log NoContainersFound]).
Proof.
  destruct (@missing_prerequisite_returns_early NodeModel.lib empty_runtime
              (migrate_flags "none" None true) web ∅) as [Hmigrate Htroubleshoot].
  split.
  - apply (proj1 (@missing_prerequisite_returns_early NodeModel.lib (all_well true)
                    (migrate_flags "none" None true) web ∅)).
    left. reflexivity.
  - apply Htroubleshoot. reflexivity.
Defined.

(** C10 as stated fails: the operator declines the build, pg_dump fails, and
    the Staging Deployment step is never entered. *)
Lemma declined_build_stops_at_failed_dump :
  ~ @declined_build_reaches_deployment NodeModel.lib (dump_fails false)
      (migrate_flags "postgres" None false) project_with_artifacts.
Proof.
  intros Hreaches.
  destruct Hreaches as (_ & _ & Hdeploy).
  - reflexivity.
  - vm_compute. in_solve.
  - reflexivity.
  - vm_compute in Hdeploy.
    repeat (destruct Hdeploy as [Hdeploy | Hdeploy]; [discriminate Hdeploy |]).
    exact Hdeploy.
Qed.

(** C10, as the code has it, on a run whose dump succeeds. *)
Lemma declined_build_skips_to_data_sync_witness :
  let t := trace_of (@Migrate.run NodeModel.lib (all_well false)
                       (migrate_flags "postgres" (Some "deploy@203.0.113.7") false)
                       project_with_artifacts) in
  existsb is_build_exec t = false
  /\ existsb is_data_sync_event t = true
  /\ (In (Log CheckingDaemon) t <->
      forall e, In e t -> is_data_sync_event e = true -> failure_of (all_well false) e = None)
  /\ (forall v i, In (Log (DeployingToVps v i)) t -> i = "acme/web:latest").
Proof.
  apply (@declined_build_skips_to_data_sync NodeModel.lib (all_well false)
           (migrate_flags "postgres" (Some "deploy@203.0.113.7") false)
           project_with_artifacts).
  - reflexivity.
  - vm_compute. in_solve.
  - reflexivity.
Defined.


(** ** Scenarios *)

(** generate in a directory with a package.json and no artifacts, port 3000,
    entrypoint dist/server.js: the node-prisma recipe and the manifest. *)
Example scenario_generate_node_prisma :
  let r := @Generate.run NodeModel.lib (all_well true) (generate_flags false)
             project_with_package_json in
  fs_of r !! "Dockerfile"
  = Some (String.concat nl
            [ "FROM node:20 AS builder";
              "WORKDIR /app";
              "COPY package*.json ./";
              "RUN npm ci";
              "COPY . .";
              "RUN npx prisma generate";
              "RUN npm run build";
              "";
              "FROM node:20-slim";
              "WORKDIR /app";
              "COPY --from=builder /app/dist ./dist";
              "COPY --from=builder /app/node_modules ./node_modules";
              "COPY --from=builder /app/prisma ./prisma";
              "ENV NODE_ENV=production";
              "EXPOSE 3000";
              "CMD [" +:+ dquote +:+ "node" +:+ dquote +:+ ", "
                +:+ dquote +:+ "dist/server.js" +:+ dquote +:+ "]" ])
  /\ fs_of r !! "docker-compose.yml"
     = Some (String.concat nl
               [ "version: '3.8'";
                 "services:";
                 "  app:";
                 "    build: .";
                 "    ports:";
                 "      - " +:+ dquote +:+ "3000:3000" +:+ dquote;
                 "    environment:";
                 "      - NODE_ENV=production  # Adjust for your stack (e.g., PYTHON_ENV for Python)" ]).
Proof.
  vm_compute. split; reflexivity.
Qed.

(** migrate with dbType none, no vps, artifacts present and a build that
    succeeds: Data Sync is skipped, the local deployment runs, the run
    returns. *)
Example scenario_migrate_local :
  @Migrate.run NodeModel.lib (all_well true) (migrate_flags "none" None false)
    project_with_artifacts
  = (Returned tt, project_with_artifacts,
     [ Log (MigrateStarting "acme/web:latest");
       Prompt QBuild;
       Log BuildingImage;
       Exec "docker buildx build --platform linux/amd64,linux/arm64 -t acme/web:latest --push .";
       Log ImageBuilt;
       Log SkippingDataSync;
       Log CheckingDaemon;
       DockerVersion;
       Log DeployingLocally;
       Exec "docker-compose up -d";
       Log StagingRunning;
       Log MigrationComplete ]).
Proof.
  reflexivity.
Qed.

(** troubleshoot without --container: the operator picks the listed
    container, which is exited and has no port bindings. *)
Example scenario_troubleshoot_exited :
  Troubleshoot.run logs_available {| Troubleshoot.container := None |} ∅
  = (Returned tt, ∅,
     [ Log TroubleshootStarting;
       DockerListContainers;
       Prompt (QContainerId [("/web (Exited (1) 2 minutes ago)", "4f2a9c01d7e3b5a6")]);
       DockerInspect "4f2a9c01d7e3b5a6";
       Log (ContainerStats "/web" "exited" (Some ∅) "acme/web:latest");
       Log (NotRunning "exited" "4f2a9c01d7e3");
       Prompt QCheckLogs;
       DockerLogs "4f2a9c01d7e3b5a6" 20;
       Log (RecentLogs "exited with code 1");
       Log RunningChecks;
       Log NoPortsExposed;
       Log TroubleshootComplete ]).
Proof.
  reflexivity.
Qed.

(** * Further properties of the commands *)

(** ** migrate *)

Lemma nondecreasing_sorted (l : list nat) :
  nondecreasing l = true -> Sorted le l.
Proof.
  induction l as [| a [| b l'] IH]; intros Hnd.
  - constructor.
  - repeat constructor.
  - cbn [nondecreasing] in Hnd. apply andb_true_iff in Hnd as [Hab Hrest].
    constructor.
    + apply IH, Hrest.
    + constructor. now apply Nat.leb_le.
Qed.

Section MigrateMore.
Context `{NodeLib} (w : World).

(** X1. In every run of migrate the events come in the order of the steps:
    start, Build and Push, Data Sync, Staging Deployment, closing message; no
    step is entered again after a later one, and the run produces no event
    outside these steps. *)
Theorem migrate_steps_in_order (flags : Migrate.Flags) (fs : filesystem) :
  let t := trace_of (Migrate.run w flags fs) in
  Sorted le (map migrate_stage t)
  /\ forall e, In e t -> migrate_stage e <= 4.
Proof.
  intros t; subst t. migrate_paths.
  all: split; [ apply nondecreasing_sorted; vm_compute; reflexivity | ].
  all: intros ev Hev; split_in Hev; subst ev; vm_compute; lia.
Qed.

(** X2. The only commands migrate ever runs are the buildx build for the
    given image (only when forced or confirmed), pg_dump for the typed
    database name (only with dbType postgres), mysqldump for it (only with
    dbType mysql) and docker-compose up -d (only without a vps target); image
    and database name enter the command line as they are. *)
Theorem migrate_runs_only_its_four_commands
    (flags : Migrate.Flags) (fs : filesystem) (cmd : string) :
  In (Exec cmd) (trace_of (Migrate.run w flags fs)) ->
  (cmd = Migrate.build_command (Migrate.image flags)
   /\ (Migrate.force flags = true \/ confirm w QBuild = true))
  \/ (cmd = Migrate.pg_dump_command (input w QDbName)
      /\ Migrate.dbType flags = "postgres")
  \/ (cmd = Migrate.mysqldump_command (input w QDbName)
      /\ Migrate.dbType flags = "mysql")
  \/ (cmd = Migrate.compose_up_command
      /\ (Migrate.vps flags = None \/ Migrate.vps flags = Some "")).
Proof.
  rewrite <- truthy_false. migrate_paths; intros Hin; split_in Hin.
  all: injection Hin as <-.
  all: repeat match goal with
              | Hq : String.eqb _ _ = true |- _ => apply String.eqb_eq in Hq
              end.
  all: first [ solve [left; split; [reflexivity | auto]]
             | solve [right; left; split; [reflexivity | assumption]]
             | solve [right; right; left; split; [reflexivity | assumption]]
             | solve [right; right; right; split; [reflexivity | auto]] ].
Qed.

(** X3. With --force the build question is never asked and, when the Docker
    files are there, the build is run; the database-name question of the Data
    Sync step is asked whenever that step dumps, forced or not. *)
Theorem force_skips_only_the_build_question (flags : Migrate.Flags) (fs : filesystem) :
  let t := trace_of (Migrate.run w flags fs) in
  (Migrate.force flags = true ->
     ~ In (Prompt QBuild) t
     /\ (~ In (Log MissingDockerFiles) t ->
         In (Exec (Migrate.build_command (Migrate.image flags))) t))
  /\ (In (Log (SyncingData (Migrate.dbType flags))) t -> In (Prompt QDbName) t).
Proof.
  intros t; subst t. migrate_paths.
  all: split;
    [ intros Hforce;
      first [ discriminate Hforce
            | (split;
               [ intros Hin; solve [split_in Hin]
               | intros Hmissing; first [ in_solve | exfalso; apply Hmissing; in_solve ] ]) ]
    | intros Hin; first [ in_solve | solve [split_in Hin] ] ].
Qed.

(** X4. The closing message of migrate is logged exactly when the run returns
    normally past the precheck, and it is then the last event: no failed run
    and no run stopped by missing files reports completion. *)
Theorem migration_complete_iff_returned (flags : Migrate.Flags) (fs : filesystem) :
  let r := Migrate.run w flags fs in
  (In (Log MigrationComplete) (trace_of r)
   <-> result_of r = Returned tt /\ ~ In (Log MissingDockerFiles) (trace_of r))
  /\ (In (Log MigrationComplete) (trace_of r) ->
      last (trace_of r) = Some (Log MigrationComplete)).
Proof.
  intros r; subst r. migrate_paths.
  all: split;
    [ split;
      [ intros Hin;
        first [ solve [split_in Hin]
              | (split; [reflexivity | intros Hm; solve [split_in Hm]]) ]
      | intros [Hres Hm];
        first [ discriminate Hres | in_solve | exfalso; apply Hm; in_solve ] ]
    | intros Hin; first [ reflexivity | solve [split_in Hin] ] ].
Qed.
End MigrateMore.

(** ** troubleshoot *)

Section TroubleshootMore.
Context (w : World).

Lemma ports_configured_true (p : option (gmap string (option (list PortBinding)))) :
  Troubleshoot.ports_configured p = true <-> exists m, p = Some m /\ m <> ∅.
Proof.
  destruct p as [m|]; unfold Troubleshoot.ports_configured.
  - rewrite Nat.ltb_lt. split.
    + intros Hs. exists m. split; [reflexivity|]. intros ->.
      rewrite map_size_empty in Hs. lia.
    + intros (m' & Hm & Hne). injection Hm as <-.
      destruct (decide (size m = 0)) as [Hz|Hz]; [|lia].
      apply map_size_empty_iff in Hz. contradiction.
  - split; [discriminate | intros (m & Hm & _); discriminate].
Qed.

(** X5. troubleshoot catches nothing: a failing list, inspect or logs call
    ends the run at that call with its error, and a run that throws does so
    with the failure of its last call. *)
Theorem troubleshoot_failure_propagates (flags : Troubleshoot.Flags) (fs : filesystem) :
  let r := Troubleshoot.run w flags fs in
  (forall ev err,
      In ev (trace_of r) -> failure_of w ev = Some err ->
      result_of r = Threw err /\ last (trace_of r) = Some ev)
  /\ (forall err,
        result_of r = Threw err ->
        exists ev, last (trace_of r) = Some ev /\ failure_of w ev = Some err).
Proof.
  intros r; subst r. troubleshoot_paths.
  all: split;
    [ intros ev err Hin Hfail; split_in Hin; subst ev; cbn in Hfail;
      repeat match goal with
             | Hq : docker_list_outcome w = _ |- _ => rewrite Hq in Hfail
             | Hq : docker_inspect_outcome w _ = _ |- _ => rewrite Hq in Hfail
             | Hq : docker_logs_outcome w _ = _ |- _ => rewrite Hq in Hfail
             end;
      try discriminate Hfail;
      (split; [congruence | reflexivity])
    | intros err Hthrew; try discriminate Hthrew;
      injection Hthrew as <-; eexists;
      (split; [reflexivity | cbn;
               match goal with Hq : _ = inl _ |- _ => now rewrite Hq end]) ].
Qed.

(** X6. troubleshoot only looks: it runs no command, writes no file, leaves
    the filesystem as it is and never queries the runtime version; it
    inspects at most one container, and it fetches logs only after the
    operator agreed, for the inspected container, with a tail of 20. *)
Theorem troubleshoot_is_read_only (flags : Troubleshoot.Flags) (fs : filesystem) :
  let r := Troubleshoot.run w flags fs in
  fs_of r = fs
  /\ (forall e, In e (trace_of r) ->
        match e with
        | Exec _ | WriteFile _ _ | DockerVersion => False
        | DockerLogs id n =>
            n = 20 /\ confirm w QCheckLogs = true /\ In (DockerInspect id) (trace_of r)
        | _ => True
        end)
  /\ length (List.filter (fun e => match e with DockerInspect _ => true | _ => false end)
               (trace_of r)) <= 1.
Proof.
  intros r; subst r. troubleshoot_paths.
  all: split; [reflexivity | split; [| cbn; lia]].
  all: intros ev Hev; split_in Hev; subst ev; try exact I.
  all: split; [reflexivity | split; [reflexivity | in_solve]].
Qed.

(** X7. When containers are listed: a non-empty --container is inspected as
    given, without a selection question and without being looked up in the
    list; otherwise the operator is asked once, with one choice per listed
    container, and the answer is inspected, unless it is empty, in which case
    nothing is inspected and the missing selection is reported. *)
Theorem troubleshoot_target_selection
    (flags : Troubleshoot.Flags) (fs : filesystem) (c : ContainerInfo) (cs : list ContainerInfo) :
  let t := trace_of (Troubleshoot.run w flags fs) in
  let asked := QContainerId (map Troubleshoot.choice_of (c :: cs)) in
  let given := default "" (Troubleshoot.container flags) in
  docker_list_outcome w = inr (c :: cs) ->
  (truthy (Troubleshoot.container flags) = true ->
     (forall choices, ~ In (Prompt (QContainerId choices)) t)
     /\ In (DockerInspect given) t
     /\ forall id', In (DockerInspect id') t -> id' = given)
  /\ (truthy (Troubleshoot.container flags) = false ->
      In (Prompt asked) t
      /\ (input w asked <> "" ->
          In (DockerInspect (input w asked)) t
          /\ forall id', In (DockerInspect id') t -> id' = input w asked)
      /\ (input w asked = "" ->
          In (Log NoContainerSelected) t /\ forall id', ~ In (DockerInspect id') t)).
Proof.
  intros t asked given Hlist; subst t asked given.
  rewrite <- String.eqb_neq, <- String.eqb_eq. cbn [List.map].
  troubleshoot_paths; try discriminate Hlist; injection Hlist as Hc Hcs; subst.
  all: split; intros Htruthy; try discriminate Htruthy.
  all: try (split; [ intros choices Hp; solve [split_in Hp] | split; [in_solve |] ];
            intros id2 Hi; split_in Hi; congruence).
  all: try congruence.
  all: split; [in_solve | split].
  all: intros Hans; try congruence.
  all: split; try in_solve.
  all: intros id2 Hi; split_in Hi; congruence.
Qed.

(** X8. When the common checks of troubleshoot are reached, exactly one verdict
    is logged: ports count as configured as soon as the port mapping has a
    key, whatever its bindings (an exposed but unpublished port is enough),
    and as missing when the mapping is absent or empty. *)
Theorem ports_verdict_counts_keys
    (flags : Troubleshoot.Flags) (fs : filesystem)
    (id : string) (info : ContainerInspectInfo) :
  let t := trace_of (Troubleshoot.run w flags fs) in
  In (DockerInspect id) t ->
  docker_inspect_outcome w id = inr info ->
  In (Log RunningChecks) t ->
  (In (Log PortsConfigured) t <->
     exists m, NetworkSettings_Ports info = Some m /\ m <> ∅)
  /\ (In (Log NoPortsExposed) t <->
      NetworkSettings_Ports info = None \/ NetworkSettings_Ports info = Some ∅)
  /\ ~ (In (Log PortsConfigured) t /\ In (Log NoPortsExposed) t).
Proof.
  intros t Hin Hinfo Hchecks; subst t.
  rewrite <- ports_configured_true, <- ports_configured_false.
  revert Hin Hchecks.
  troubleshoot_paths; intros Hin Hchecks; split_in Hin; injection Hin as <-.
  all: match goal with
       | Hi : docker_inspect_outcome w _ = inl _ |- _ => congruence
       | Hi : docker_inspect_outcome w _ = inr ?c |- _ =>
           assert (c = info) as -> by congruence
       end.
  all: try solve [split_in Hchecks].
  all: split; [ | split ].
  all: try (intros [Hc Hn]; split_in Hc; solve [split_in Hn]).
  all: split.
  all: try (intros Hv; split_in Hv; congruence).
  all: intros Hp; first [ in_solve | congruence ].
Qed.
End TroubleshootMore.

(** ** generate *)

Section GenerateMore.
Context `{NodeLib} (w : World).

(** X9. The stack generate works with: a non-empty --stack as given, without
    detection; else node-prisma when package.json exists; else python when
    requirements.txt exists; else what the operator chooses, used as it is.
    The filesystem is only read. *)
Theorem resolveStack_priority (flags : Generate.Flags) (fs : filesystem) :
  Generate.resolveStack w flags fs
  = if truthy (Generate.stack flags) then
      (Returned (Generate.stack flags), fs, [])
    else if exists_in fs (path_join (Generate.output flags) "package.json") then
      (Returned (Some "node-prisma"), fs, [Log (AutoDetected "node-prisma")])
    else if exists_in fs (path_join (Generate.output flags) "requirements.txt") then
      (Returned (Some "python"), fs, [Log (AutoDetected "python")])
    else
      (Returned (Some (input w QStack)), fs,
       [Log (AutoDetected "unknown"); Prompt QStack]).
Proof.
  unfold exists_in.
  remember (Generate.resolveStack w flags fs) as r eqn:Hr.
  unfold Generate.resolveStack, Generate.detectStack in Hr.
  unfold_cmd_in Hr. cbn in Hr.
  repeat (generate_step Hr; cbn in Hr); subst r.
  all: try congruence.
  all: reflexivity.
Qed.

(** The filesystem and the questions of a run of generate. *)
Lemma generate_run_effects (flags : Generate.Flags) (fs : filesystem) :
  let r := Generate.run w flags fs in
  let dockerfilePath := path_join (Generate.output flags) "Dockerfile" in
  let composePath := path_join (Generate.output flags) "docker-compose.yml" in
  let st := resolved_stack w flags fs in
  fs_of r
  = (if authorized w flags fs
     then <[composePath := Generate.generateComposeContent st (answers_for w st)]>
            (<[dockerfilePath := Generate.generateDockerfileContent st (answers_for w st)]> fs)
     else fs)
  /\ (In (Prompt QOverwrite) (trace_of r)
      <-> (exists_in fs dockerfilePath || exists_in fs composePath = true
           /\ Generate.force flags = false))
  /\ (In (Log GenerationSkipped) (trace_of r) <-> authorized w flags fs = false).
Proof.
  intros r dP cP st; subst r dP cP st.
  unfold authorized, exists_in, resolved_stack, answers_for.
  remember (Generate.run w flags fs) as r eqn:Hr.
  unfold Generate.run, Generate.promptAndWrite in Hr.
  unfold_cmd_in Hr. rewrite resolveStack_priority in *. unfold exists_in in *.
  repeat (generate_step Hr; cbn in Hr); subst r; cbn.
  all: repeat match goal with Hq : String.eqb _ _ = _ |- _ => rewrite Hq end.
  all: split; [reflexivity | split].
  all: (split; [ intros Hin; split_in Hin; first [ auto | discriminate ]
               | first [ intros [Ha Hb]; discriminate
                       | intros Ha; discriminate Ha
                       | intros _; in_solve ] ]).
Qed.

(** X10. generate asks the overwrite question exactly when one of the two
    artifacts exists and --force is not given, and reports a skip exactly
    when it asked and the operator declined. *)
Theorem overwrite_question_iff_existing_and_not_forced
    (flags : Generate.Flags) (fs : filesystem) :
  let t := trace_of (Generate.run w flags fs) in
  let dockerfilePath := path_join (Generate.output flags) "Dockerfile" in
  let composePath := path_join (Generate.output flags) "docker-compose.yml" in
  (In (Prompt QOverwrite) t
   <-> (is_Some (fs !! dockerfilePath) \/ is_Some (fs !! composePath))
       /\ Generate.force flags = false)
  /\ (In (Log GenerationSkipped) t
      <-> In (Prompt QOverwrite) t /\ confirm w QOverwrite = false).
Proof.
  intros t dP cP; subst t.
  destruct (generate_run_effects flags fs) as (_ & Hasked & Hskipped).
  fold dP cP in Hasked. rewrite Hskipped, Hasked. unfold authorized, exists_in.
  fold dP cP. rewrite !is_Some_alt.
  destruct (fs !! dP), (fs !! cP), (Generate.force flags), (confirm w QOverwrite);
    cbn; intuition congruence.
Qed.




(** X14. With the same port: for a stack other than node-prisma and python
    the Dockerfile does not depend on the entrypoint answer; two stacks that
    are none of the three known ones get the same Dockerfile; and the
    manifest depends on neither the stack nor the entrypoint. *)
Theorem entrypoint_and_stack_unused
    (stack1 stack2 : option string) (answers1 answers2 : Generate.Answers) :
  Generate.port answers1 = Generate.port answers2 ->
  (strict_eq stack1 "node-prisma" = false ->
   strict_eq stack1 "python" = false ->
   Generate.generateDockerfileContent stack1 answers1
   = Generate.generateDockerfileContent stack1 answers2)
  /\ (strict_eq stack1 "node-prisma" = false ->
      strict_eq stack1 "python" = false ->
      strict_eq stack1 "react" = false ->
      strict_eq stack2 "node-prisma" = false ->
      strict_eq stack2 "python" = false ->
      strict_eq stack2 "react" = false ->
      Generate.generateDockerfileContent stack1 answers1
      = Generate.generateDockerfileContent stack2 answers2)
  /\ Generate.generateComposeContent stack1 answers1
     = Generate.generateComposeContent stack2 answers2.
Proof.
  intros Hport. unfold Generate.generateDockerfileContent, Generate.generateComposeContent.
  rewrite Hport. repeat split.
  - intros -> ->. reflexivity.
  - intros -> -> -> -> -> ->. reflexivity.
Qed.
End GenerateMore.



(** ** notify *)

Ltac notify_step H :=
  match type of H with
  | context [Notify.config ?f] => destruct (Notify.config f) eqn:?
  | context [truthy ?v] => destruct (truthy v) eqn:?
  | context [Notify.sendMail_outcome ?w ?t ?m] =>
      destruct (Notify.sendMail_outcome w t m) eqn:?
  end.

Ltac notify_paths :=
  match goal with
  | |- context [Notify.run ?w ?flags ?env] =>
      let r := fresh "r" in
      let Hr := fresh "Hrun" in
      remember (Notify.run w flags env) as r eqn:Hr in *;
      cbv [Notify.run Notify.bind Notify.ret Notify.try_catch Notify.log
           Notify.prompt Notify.sendMail Notify.createTransport] in Hr;
      cbn in Hr;
      repeat (notify_step Hr; cbn in Hr);
      subst r; cbn [fst snd] in *
  end.

Ltac notify_split_in H :=
  cbn in H;
  repeat match type of H with
         | _ ∨ _ => destruct H as [H | H]
         | False => destruct H
         end;
  try discriminate H.

Section NotifyFacts.
Context (w : Notify.World).

(** X16. notify never throws: a rejected sendMail is caught, its error is
    logged, the success message is not, and the closing message is still the
    last event. *)
Theorem notify_reports_send_failure (flags : Notify.Flags) (env : gmap string string) :
  let r := Notify.run w flags env in
  fst r = Returned tt
  /\ (forall mail err,
        In (Notify.SendMail mail) (snd r) ->
        Notify.sendMail_outcome w (smtp_transport env) mail = Some err ->
        In (Notify.Log (Notify.ErrorSending err)) (snd r)
        /\ (forall s, ~ In (Notify.Log (Notify.EmailSent s)) (snd r))
        /\ last (snd r) = Some (Notify.Log Notify.SetupDone)).
Proof.
  intros r; subst r. unfold smtp_transport. notify_paths.
  all: split; [reflexivity |].
  all: intros mail err Hin Hfail; notify_split_in Hin; injection Hin as <-.
  all: try congruence.
  all: split; [ | split; [ intros s Hs; solve [notify_split_in Hs] | reflexivity ] ].
  all: assert (e = err) as -> by congruence; cbn; auto 10.
Qed.

(** X17. notify sends a mail exactly when --config is not given and
    SMTP_HOST, SMTP_USER and SMTP_PASS are all set and non-empty; it sends at
    most one, from SMTP_USER, to --to or else the typed recipient, with the
    subject and text of the flags, over a transport built from the
    environment with secure false. *)
Theorem notify_sends_iff_ready (flags : Notify.Flags) (env : gmap string string) :
  let t := snd (Notify.run w flags env) in
  ((exists mail, In (Notify.SendMail mail) t) <-> smtp_ready flags env = true)
  /\ (forall mail, In (Notify.SendMail mail) t -> mail = test_mail w flags env)
  /\ (forall options, In (Notify.CreateTransport options) t ->
        options = smtp_transport env /\ Notify.secure options = false)
  /\ length (List.filter (fun e => match e with Notify.SendMail _ => true | _ => false end) t)
     <= 1.
Proof.
  intros t; subst t. unfold smtp_ready, test_mail, recipient, smtp_transport.
  notify_paths.
  all: cbn.
  all: split; [ split; [ intros [mail Hin]; notify_split_in Hin; reflexivity
                       | intros Hr; first [ discriminate Hr | eexists; cbn; auto 10 ] ] | ].
  all: split; [ intros mail Hin; notify_split_in Hin; now injection Hin | ].
  all: split; [ intros options Hin; notify_split_in Hin; injection Hin as <-; now split | lia ].
Qed.

(** X18. In configuration mode (--config, or SMTP_HOST unset or empty)
    notify logs the four answers, the typed password among them, sends
    nothing and never asks for a recipient, even when --to is given. *)
Theorem notify_configuration_echoes_password
    (flags : Notify.Flags) (env : gmap string string) :
  let t := snd (Notify.run w flags env) in
  Notify.config flags = true \/ truthy (env !! "SMTP_HOST") = false ->
  In (Notify.Log (Notify.ConfigurationComplete
                    (Notify.answer w Notify.QHost) (Notify.answer w Notify.QSmtpPort)
                    (Notify.answer w Notify.QUser) (Notify.answer w Notify.QPass))) t
  /\ (forall mail, ~ In (Notify.SendMail mail) t)
  /\ ~ In (Notify.Prompt Notify.QTo) t.
Proof.
  intros t Hmode; subst t. notify_paths.
  all: try (destruct Hmode; congruence).
  all: split; [ cbn; auto 10 | split ].
  all: try (intros mail Hin; solve [notify_split_in Hin]).
  all: intros Hin; solve [notify_split_in Hin].
Qed.
End NotifyFacts.

(** ** generate of src/commands/generate.ts *)


(** ** Sample runs for the further properties *)


Lemma migrate_steps_in_order_witness :
  migrate_stage (Exec "docker-compose up -d") <= 4.
Proof.
  apply (proj2 (@migrate_steps_in_order NodeModel.lib (all_well true)
                  (migrate_flags "postgres" None false) project_with_artifacts)).
  vm_compute. in_solve.
Defined.

Lemma migrate_runs_only_its_four_commands_witness :
  ("pg_dump yourdb > db_dump.sql"
   = Migrate.build_command "acme/web:latest" /\ (false = true \/ true = true))
  \/ ("pg_dump yourdb > db_dump.sql" = Migrate.pg_dump_command "yourdb"
      /\ "postgres" = "postgres")
  \/ ("pg_dump yourdb > db_dump.sql" = Migrate.mysqldump_command "yourdb"
      /\ "postgres" = "mysql")
  \/ ("pg_dump yourdb > db_dump.sql" = Migrate.compose_up_command
      /\ (@None string = None \/ None = Some "")).
Proof.
  apply (@migrate_runs_only_its_four_commands NodeModel.lib (all_well true)
           (migrate_flags "postgres" None false) project_with_artifacts
           "pg_dump yourdb > db_dump.sql").
  vm_compute. in_solve.
Defined.

Lemma force_skips_only_the_build_question_witness :
  let t := trace_of (@Migrate.run NodeModel.lib (all_well false)
                       (migrate_flags "mysql" None true) project_with_artifacts) in
  (~ In (Prompt QBuild) t /\ In (Exec (Migrate.build_command "acme/web:latest")) t)
  /\ In (Prompt QDbName) t.
Proof.
  destruct (@force_skips_only_the_build_question NodeModel.lib (all_well false)
              (migrate_flags "mysql" None true) project_with_artifacts)
    as [Hforced Hasked].
  destruct (Hforced eq_refl) as [Hquiet Hbuilt].
  split; [split; [exact Hquiet | apply Hbuilt] | apply Hasked].
  - vm_compute. intros Hin.
    repeat (destruct Hin as [Hin | Hin]; [discriminate Hin |]). exact Hin.
  - vm_compute. in_solve.
Defined.

Lemma migration_complete_iff_returned_witness :
  let r := @Migrate.run NodeModel.lib (all_well true)
             (migrate_flags "none" (Some "deploy@203.0.113.7") true)
             project_with_artifacts in
  In (Log MigrationComplete) (trace_of r)
  /\ last (trace_of r) = Some (Log MigrationComplete).
Proof.
  destruct (@migration_complete_iff_returned NodeModel.lib (all_well true)
              (migrate_flags "none" (Some "deploy@203.0.113.7") true)
              project_with_artifacts) as [Hiff Hlast].
  assert (Hin : In (Log MigrationComplete)
                  (trace_of (@Migrate.run NodeModel.lib (all_well true)
                               (migrate_flags "none" (Some "deploy@203.0.113.7") true)
                               project_with_artifacts))).
  { apply Hiff. split; [reflexivity |].
    vm_compute. intros Hin.
    repeat (destruct Hin as [Hin | Hin]; [discriminate Hin |]). exact Hin. }
  split; [exact Hin | exact (Hlast Hin)].
Defined.

Lemma troubleshoot_failure_propagates_witness :
  let r := Troubleshoot.run logs_unavailable web ∅ in
  result_of r = Threw "configured logging driver does not support reading"
  /\ last (trace_of r) = Some (DockerLogs "web" 20).
Proof.
  apply (proj1 (troubleshoot_failure_propagates logs_unavailable web ∅)).
  - vm_compute. in_solve.
  - reflexivity.
Defined.

Lemma troubleshoot_is_read_only_witness :
  20 = 20 /\ confirm logs_available QCheckLogs = true
  /\ In (DockerInspect "web") (trace_of (Troubleshoot.run logs_available web ∅)).
Proof.
  apply (proj1 (proj2 (troubleshoot_is_read_only logs_available web ∅))
           (DockerLogs "web" 20)).
  vm_compute. in_solve.
Defined.

Lemma troubleshoot_target_selection_witness :
  let t := trace_of (Troubleshoot.run logs_available web ∅) in
  (forall choices, ~ In (Prompt (QContainerId choices)) t)
  /\ In (DockerInspect "web") t
  /\ forall id', In (DockerInspect id') t -> id' = "web".
Proof.
  apply (proj1 (troubleshoot_target_selection logs_available web ∅
                  {| Id := "4f2a9c01d7e3b5a6"; Names := ["/web"];
                     Status := "Exited (1) 2 minutes ago" |} [] eq_refl)).
  reflexivity.
Defined.

Lemma ports_verdict_counts_keys_witness :
  let t := trace_of (Troubleshoot.run
                       (sample_world false nothing_fails exposed_only (inr "")) web ∅) in
  In (Log PortsConfigured) t.
Proof.
  destruct (ports_verdict_counts_keys
              (sample_world false nothing_fails exposed_only (inr "")) web ∅
              "web" exposed_only) as (Hconfigured & _ & _).
  - vm_compute. in_solve.
  - reflexivity.
  - vm_compute. in_solve.
  - apply Hconfigured. eexists. split; [reflexivity |].
    intros Hempty.
    apply (f_equal (fun m : gmap string (option (list PortBinding)) => m !! "80/tcp"))
      in Hempty.
    vm_compute in Hempty. discriminate Hempty.
Defined.

Lemma overwrite_question_iff_existing_and_not_forced_witness :
  In (Prompt QOverwrite)
    (trace_of (@Generate.run NodeModel.lib (all_well false) (generate_flags false)
                 project_with_artifacts)).
Proof.
  apply (proj1 (@overwrite_question_iff_existing_and_not_forced NodeModel.lib
                  (all_well false) (generate_flags false) project_with_artifacts)).
  split; [left; vm_compute; eauto | reflexivity].
Defined.




Lemma entrypoint_and_stack_unused_witness :
  @Generate.generateDockerfileContent NodeModel.lib (Some "react")
    {| Generate.port := "80"; Generate.entrypoint := "dist/server.js" |}
  = @Generate.generateDockerfileContent NodeModel.lib (Some "react")
      {| Generate.port := "80"; Generate.entrypoint := "src/index.js" |}.
Proof.
  apply (@entrypoint_and_stack_unused NodeModel.lib (Some "react") None
           {| Generate.port := "80"; Generate.entrypoint := "dist/server.js" |}
           {| Generate.port := "80"; Generate.entrypoint := "src/index.js" |} eq_refl);
    reflexivity.
Defined.

Lemma notify_reports_send_failure_witness :
  let t := snd (Notify.run (mail_world (Some "Invalid login")) (notify_flags false None)
                  smtp_env) in
  In (Notify.Log (Notify.ErrorSending "Invalid login")) t
  /\ (forall s, ~ In (Notify.Log (Notify.EmailSent s)) t)
  /\ last t = Some (Notify.Log Notify.SetupDone).
Proof.
  apply (proj2 (notify_reports_send_failure (mail_world (Some "Invalid login"))
                  (notify_flags false None) smtp_env)
           (test_mail (mail_world (Some "Invalid login")) (notify_flags false None) smtp_env)).
  - vm_compute. auto 10.
  - reflexivity.
Defined.

Lemma notify_sends_iff_ready_witness :
  exists mail,
    In (Notify.SendMail mail)
      (snd (Notify.run (mail_world None) (notify_flags false (Some "admin@example.org"))
              smtp_env)).
Proof.
  apply (proj1 (notify_sends_iff_ready (mail_world None)
                  (notify_flags false (Some "admin@example.org")) smtp_env)).
  reflexivity.
Defined.

Lemma notify_configuration_echoes_password_witness :
  let t := snd (Notify.run (mail_world None) (notify_flags true (Some "admin@example.org"))
                  smtp_env) in
  In (Notify.Log (Notify.ConfigurationComplete "smtp.gmail.com" "587" "me@gmail.com"
                    "hunter2")) t
  /\ (forall mail, ~ In (Notify.SendMail mail) t)
  /\ ~ In (Notify.Prompt Notify.QTo) t.
Proof.
  apply (notify_configuration_echoes_password (mail_world None)
           (notify_flags true (Some "admin@example.org")) smtp_env).
  left. reflexivity.
Defined.
